(** * js2ics: validation and formatting of iCalendar documents

    A shallow embedding of the js2ics module and the properties stated
    about it.  The repository holds three revisions of the module: the two
    listings of src/index.js and src/unnamed/part_000.  They share most of
    their functions; the embedding follows the revision that has the
    [timeZone] option and keeps what differs in the other two in the
    modules [Rev1] and [Rev2].

    The code works on loosely typed option objects, so the embedding starts
    with a small model of JavaScript values: truthiness, property reads,
    string conversion, exceptions.  Numbers and functions are left out, as
    no option of the interface takes one.  What the module calls from
    lodash, path, fs and moment is modelled next, and what it reads from the
    machine it runs on is gathered in a record, [Host]. *)

From Stdlib Require Import String Ascii List ZArith Lia Bool DecimalString.
Import ListNotations.
Open Scope Z_scope.
Open Scope string_scope.
Set Warnings "-register-all".

(** ** JavaScript values *)

(** Objects are association lists in property insertion order; a read
    returns the first binding of the key. *)
Inductive Value : Type :=
| VUndefined
| VNull
| VBool (b : bool)
| VStr (s : string)
| VArr (items : list Value)
| VObj (props : list (string * Value)).

Inductive Error : Type :=
| TypeError (msg : string).

(** A computation either returns or throws. *)
Inductive Res (A : Type) : Type :=
| Ok (a : A)
| Throw (e : Error).
Arguments Ok {A} a.
Arguments Throw {A} e.

Definition bind {A B} (m : Res A) (k : A -> Res B) : Res B :=
  match m with
  | Ok a => k a
  | Throw e => Throw e
  end.

Notation "x <- m ;; k" := (bind m (fun x => k))
  (at level 61, m at next level, right associativity).

Fixpoint mapM {A B} (f : A -> Res B) (l : list A) : Res (list B) :=
  match l with
  | [] => Ok []
  | x :: rest => y <- f x ;; ys <- mapM f rest ;; Ok (y :: ys)
  end.

(** ToBoolean. *)
Definition truthy (v : Value) : bool :=
  match v with
  | VUndefined | VNull => false
  | VBool b => b
  | VStr s => negb (s =? "")
  | VArr _ | VObj _ => true
  end.

(** [a || b] *)
Definition js_or (a b : Value) : Value := if truthy a then a else b.

Fixpoint lookup (k : string) (ps : list (string * Value)) : Value :=
  match ps with
  | [] => VUndefined
  | (k', v) :: rest => if k' =? k then v else lookup k rest
  end.

(** [v.k] for a value that is neither [undefined] nor [null]; none of the
    property names this module reads exists on a primitive or an array. *)
Definition prop (v : Value) (k : string) : Value :=
  match v with
  | VObj ps => lookup k ps
  | _ => VUndefined
  end.

(** [v.k]: reading a property of [undefined] or [null] throws. *)
Definition get (v : Value) (k : string) : Res Value :=
  match v with
  | VUndefined => Throw (TypeError "Cannot read properties of undefined")
  | VNull => Throw (TypeError "Cannot read properties of null")
  | _ => Ok (prop v k)
  end.

(** [Array.prototype.join] on an array of strings. *)
Fixpoint join (sep : string) (l : list string) : string :=
  match l with
  | [] => ""
  | [x] => x
  | x :: rest => x ++ sep ++ join sep rest
  end.

(** ToString, as applied by template literals and by [+] with a string. *)
Fixpoint toString (v : Value) : string :=
  match v with
  | VUndefined => "undefined"
  | VNull => "null"
  | VBool true => "true"
  | VBool false => "false"
  | VStr s => s
  | VArr l =>
      join "," (map (fun x => match x with
                              | VUndefined | VNull => ""
                              | _ => toString x
                              end) l)
  | VObj _ => "[object Object]"
  end.

(** ** lodash *)

(** lodash [toString]: like ToString, but [null] and [undefined] give the
    empty string. *)
Definition lodash_toString (v : Value) : string :=
  match v with
  | VUndefined | VNull => ""
  | _ => toString v
  end.

(** [_.endsWith(string, target)] *)
Definition endsWith (v : Value) (target : string) : bool :=
  let s := lodash_toString v in
  let n := String.length s in
  let m := String.length target in
  (m <=? n)%nat && (substring (n - m) m s =? target).

(** The elements lodash iterates over in [_.map], [_.filter] and [_.each]:
    the items of an array, the values of an object, the characters of a
    string, and nothing for any other value. *)
Definition collection (v : Value) : list Value :=
  match v with
  | VArr l => l
  | VObj ps => map snd ps
  | VStr s => map (fun c => VStr (String c "")) (list_ascii_of_string s)
  | _ => []
  end.

(** ** Calendar arithmetic

    JavaScript dates count milliseconds since 1970-01-01T00:00:00Z in the
    proleptic Gregorian calendar.  The two conversions below are the usual
    era-based ones (an era is 400 years, 146097 days, starting on 1 March). *)

Section Calendar.
Local Open Scope Z_scope.

Definition days_from_civil (y m d : Z) : Z :=
  let y' := if m <=? 2 then y - 1 else y in
  let era := y' / 400 in
  let yoe := y' - era * 400 in
  let mp := if m <=? 2 then m + 9 else m - 3 in
  let doy := (153 * mp + 2) / 5 + d - 1 in
  let doe := yoe * 365 + yoe / 4 - yoe / 100 + doy in
  era * 146097 + doe - 719468.

Definition civil_of_doe (doe : Z) : Z * Z * Z :=
  let yoe := (doe - doe / 1460 + doe / 36524 - doe / 146096) / 365 in
  let doy := doe - (365 * yoe + yoe / 4 - yoe / 100) in
  let mp := (5 * doy + 2) / 153 in
  let d := doy - (153 * mp + 2) / 5 + 1 in
  let m := if mp <? 10 then mp + 3 else mp - 9 in
  (if m <=? 2 then yoe + 1 else yoe, m, d).

Definition civil_from_days (z : Z) : Z * Z * Z :=
  let z' := z + 719468 in
  let era := z' / 146097 in
  let '(y, m, d) := civil_of_doe (z' - era * 146097) in
  (y + era * 400, m, d).

Definition is_leap (y : Z) : bool :=
  ((y mod 4 =? 0) && negb (y mod 100 =? 0)) || (y mod 400 =? 0).

Definition days_in_month (y m : Z) : Z :=
  if m =? 2 then (if is_leap y then 29 else 28)
  else if (m =? 4) || (m =? 6) || (m =? 9) || (m =? 11) then 30
  else 31.

Definition MS_PER_DAY : Z := 86400000.

(** [Date.UTC(y, m - 1, d, hh, mm, ss)] *)
Definition utc_ms (y m d hh mm ss : Z) : Z :=
  days_from_civil y m d * MS_PER_DAY + hh * 3600000 + mm * 60000 + ss * 1000.

End Calendar.

(** ** The host

    Everything the module reads from its surroundings: [os.tmpdir()],
    [os.EOL], [tz.guess()], the clock behind [moment()], the rules of the
    local time zone, [path.join] and the outcome of [fs.writeFile]. *)
Record Host : Type := {
  TMPDIR : string;
  SYSTEM_LINE_BREAK : string;
  guessedTimezone : string;
  (** current instant, in milliseconds since the epoch; one call of the
      module reads it at a single, fixed instant *)
  now : Z;
  (** offset of local time from UTC, in minutes, at a given instant *)
  utcOffset : Z -> Z;
  (** what moment makes of an input that is not a well-formed
      [YYYY-MM-DDTHH:mm:ssZ] string: an instant, or an invalid date *)
  moment_lenient : Value -> option Z;
  (** [path.join] of two strings *)
  path_join : string -> string -> string;
  (** the error code of a write of [data] to [path], if it fails *)
  writeFile_error : string -> string -> option string
}.

(** ** moment *)

Section Moment.
Local Open Scope Z_scope.

Definition decimal (n : Z) : string :=
  DecimalString.NilZero.string_of_uint (N.to_uint (Z.to_N n)).

Fixpoint zeros (n : nat) : string :=
  match n with
  | O => ""%string
  | S k => String "0" (zeros k)
  end.

(** moment's [zeroFill(number, targetLength)] *)
Definition zeroFill (number : Z) (targetLength : nat) : string :=
  let absNumber := decimal (Z.abs number) in
  ((if (number <? 0)%Z then "-" else "")
   ++ zeros (targetLength - String.length absNumber) ++ absNumber)%string.

(** Local calendar fields of an instant: year, month, day, hour, minute,
    second. *)
Definition local_fields (h : Host) (t : Z) : Z * Z * Z * Z * Z * Z :=
  let local := t + utcOffset h t * 60000 in
  let '(y, m, d) := civil_from_days (local / MS_PER_DAY) in
  let ms := local mod MS_PER_DAY in
  (y, m, d, ms / 3600000, (ms / 60000) mod 60, (ms / 1000) mod 60).

(** [.format(icalTimeFormat)] with [icalTimeFormat = 'YYYYMMDDTHHmmss'] on
    a valid moment. *)
Definition format_ical (h : Host) (t : Z) : string :=
  let '(y, m, d, hh, mm, ss) := local_fields h t in
  (zeroFill y 4 ++ zeroFill m 2 ++ zeroFill d 2 ++ "T"
   ++ zeroFill hh 2 ++ zeroFill mm 2 ++ zeroFill ss 2)%string.

(** [.format(icalTimeFormat)]; an invalid moment formats as the locale's
    invalid-date text. *)
Definition moment_format (h : Host) (m : option Z) : string :=
  match m with
  | Some t => format_ical h t
  | None => "Invalid date"%string
  end.

(** *** Reading a well-formed [YYYY-MM-DDTHH:mm:ssZ] string *)

Definition digit_val (c : ascii) : option Z :=
  let n := Z.of_nat (nat_of_ascii c) in
  if (48 <=? n) && (n <=? 57) then Some (n - 48) else None.

(** Exactly [n] decimal digits. *)
Fixpoint take_digits (n : nat) (acc : Z) (s : string) : option (Z * string) :=
  match n with
  | O => Some (acc, s)
  | S k =>
      match s with
      | String c rest =>
          match digit_val c with
          | Some d => take_digits k (acc * 10 + d) rest
          | None => None
          end
      | EmptyString => None
      end
  end.

Definition expect (c : ascii) (s : string) : option string :=
  match s with
  | String c' rest => if Ascii.eqb c c' then Some rest else None
  | EmptyString => None
  end.

(** The offset, in minutes: [Z], or a sign, two digits, a colon and two
    digits, up to the end of the string. *)
Definition parse_offset (s : string) : option Z :=
  match s with
  | String c rest =>
      if Ascii.eqb c "Z" then (if (rest =? "")%string then Some 0 else None)
      else if Ascii.eqb c "+" || Ascii.eqb c "-" then
        match take_digits 2 0 rest with
        | Some (hh, rest1) =>
            match expect ":" rest1 with
            | Some rest2 =>
                match take_digits 2 0 rest2 with
                | Some (mm, rest3) =>
                    if (rest3 =? "")%string
                    then Some (let minutes := hh * 60 + mm in
                               if Ascii.eqb c "+" then minutes else - minutes)
                    else None
                | None => None
                end
            | None => None
            end
        | None => None
        end
      else None
  | EmptyString => None
  end.

Definition opt_bind {A B} (m : option A) (k : A -> option B) : option B :=
  match m with
  | Some a => k a
  | None => None
  end.

(** The fields of a well-formed input: year, month, day, hour, minute,
    second and offset in minutes. *)
Definition parse_fields (s : string) : option (Z * Z * Z * Z * Z * Z * Z) :=
  opt_bind (take_digits 4 0 s) (fun '(y, s1) =>
  opt_bind (expect "-" s1) (fun s2 =>
  opt_bind (take_digits 2 0 s2) (fun '(m, s3) =>
  opt_bind (expect "-" s3) (fun s4 =>
  opt_bind (take_digits 2 0 s4) (fun '(d, s5) =>
  opt_bind (expect "T" s5) (fun s6 =>
  opt_bind (take_digits 2 0 s6) (fun '(hh, s7) =>
  opt_bind (expect ":" s7) (fun s8 =>
  opt_bind (take_digits 2 0 s8) (fun '(mm, s9) =>
  opt_bind (expect ":" s9) (fun s10 =>
  opt_bind (take_digits 2 0 s10) (fun '(ss, s11) =>
  opt_bind (parse_offset s11) (fun off =>
  Some (y, m, d, hh, mm, ss, off))))))))))))).

(** The ranges moment checks before it calls a date valid. *)
Definition fields_in_range (y m d hh mm ss : Z) : bool :=
  (1 <=? m) && (m <=? 12) && (1 <=? d) && (d <=? days_in_month y m)
  && (hh <=? 23) && (mm <=? 59) && (ss <=? 59).

(** The instant a well-formed input denotes: the fields are read as a UTC
    date and the offset is subtracted. *)
Definition parse_iso (s : string) : option Z :=
  match parse_fields s with
  | Some (y, m, d, hh, mm, ss, off) =>
      if fields_in_range y m d hh mm ss
      then Some (utc_ms y m d hh mm ss - off * 60000)
      else None
  | None => None
  end.

(** [moment(input, inputTimeFormat)] with
    [inputTimeFormat = 'YYYY-MM-DDTHH:mm:ssZ']. *)
Definition moment_parse (h : Host) (input : Value) : option Z :=
  match input with
  | VStr s =>
      match parse_iso s with
      | Some t => Some t
      | None => moment_lenient h input
      end
  | _ => moment_lenient h input
  end.

(** [moment().add(hours, 'h')]; an [undefined] amount adds nothing. *)
Definition moment_now_add (h : Host) (hours : option Z) : option Z :=
  Some (now h + match hours with Some n => n | None => 0 end * 3600000).

End Moment.

(** ** The module (src/index.js)

    The repository holds three revisions of the module.  The definitions
    below follow the second listing of src/index.js, the only revision
    with the [timeZone] option.  The functions up to
    [validateEventOptions], the formatters that take no time zone,
    [formatCalendar] and [toFile] read the same in all three; what differs
    in the two earlier revisions is in [Rev1] and [Rev2] further down. *)

(** *** Configuration *)

Definition DEFAULT_EVENT_NAME : string := "New Event".
Definition DEFAULT_FILE_NAME : string := "calendar-event.ics".
Definition DEFAULT_ATTENDEE_RSVP : bool := false.

(** *** Ical format stuff *)

(** The double quote character, as a string. *)
Definition DQUOTE : string := String (ascii_of_nat 34) EmptyString.

Definition timeProperty (name : string) (dtstamp timezone : Value) : string :=
  name ++ ";TZID=" ++ toString timezone ++ ":" ++ toString dtstamp.

Definition calendarHeader (h : Host) : string :=
  join (SYSTEM_LINE_BREAK h) ["BEGIN:VCALENDAR"; "VERSION:2.0"].

Definition calendarFooter : string := "END:VCALENDAR".

Definition eventHeader (h : Host) (dtstamp timeZone : Value) : string :=
  join (SYSTEM_LINE_BREAK h)
       [""; "BEGIN:VEVENT"; timeProperty "DTSTAMP" dtstamp timeZone].

Definition eventFooter : string := "END:VEVENT".

(** The two person formatters are only called on a value that passed a
    truthiness test or came out of an iteration; reading a property of
    [null] or [undefined] throws. *)
Definition fmt_organizer (organizer : Value) : Res string :=
  name <- get organizer "name" ;;
  email <- get organizer "email" ;;
  Ok ("ORGANIZER;CN=" ++ toString name ++ ":MAILTO:" ++ toString email).

Definition fmt_attendee (attendee : Value) : Res string :=
  name <- get attendee "name" ;;
  rsvp <- get attendee "rsvp" ;;
  email <- get attendee "email" ;;
  Ok ("ATTENDEE;CN=" ++ DQUOTE ++ toString name ++ DQUOTE ++ ";RSVP="
      ++ toString rsvp ++ ":MAILTO:" ++ toString email).

Definition fmt_dtstart (dtstamp timeZone : Value) : string :=
  timeProperty "DTSTART" dtstamp timeZone.

Definition fmt_dtend (dtstamp timeZone : Value) : string :=
  timeProperty "DTEND" dtstamp timeZone.

Definition fmt_location (location : Value) : string :=
  "LOCATION:" ++ toString location.

Definition fmt_description (description : Value) : string :=
  "DESCRIPTION:" ++ toString description.

Definition fmt_summary (summary : Value) : string :=
  "SUMMARY:" ++ toString summary.

(** *** Validation *)

Definition validateDateStamp (h : Host) (dtstamp : Value)
    (hoursToAddIfEmpty : option Z) : string :=
  if truthy dtstamp
  then moment_format h (moment_parse h dtstamp)
  else moment_format h (moment_now_add h hoursToAddIfEmpty).

Definition validateDateStart (h : Host) (dtstart : Value) : string :=
  validateDateStamp h dtstart (Some 0%Z).

Definition validateDateEnd (h : Host) (dtend : Value) : string :=
  validateDateStamp h dtend (Some 1%Z).

(** [person && person.email && person.name]: the value of the first falsy
    operand, or of the last one. *)
Definition isValidPerson (person : Value) : Value :=
  if truthy person
  then (if truthy (prop person "email")
        then prop person "name"
        else prop person "email")
  else person.

Definition validateOrganizer (organizer : Value) : Value :=
  if truthy (isValidPerson organizer) then organizer else VBool false.

(** The mapped function only sees entries that passed [isValidPerson], so
    its property reads cannot throw. *)
Definition validatedAttendee (attendee : Value) : Value :=
  VObj [ ("email", prop attendee "email");
         ("name", prop attendee "name");
         ("rsvp", js_or (prop attendee "rsvp") (VBool DEFAULT_ATTENDEE_RSVP)) ].

Definition validateAttendees (attendees : Value) : Value :=
  VArr (map validatedAttendee
            (filter (fun person => truthy (isValidPerson person))
                    (collection attendees))).

Definition validateFilePath (h : Host) (fileName filePath : Value) : Res Value :=
  if truthy filePath then Ok filePath
  else if negb (truthy fileName)
  then Ok (VStr (path_join h (TMPDIR h) DEFAULT_FILE_NAME))
  else
    let validFileName :=
      if endsWith fileName ".ics" then fileName
      else VStr (toString fileName ++ ".ics") in
    match validFileName with
    | VStr name => Ok (VStr (path_join h (TMPDIR h) name))
    | _ => Throw (TypeError "The path argument must be of type string")
    end.

Definition validateEventOptions (h : Host) (eventOptions : Value) : Res Value :=
  dtstamp <- get eventOptions "dtstamp" ;;
  organizer <- get eventOptions "organizer" ;;
  dtstart <- get eventOptions "dtstart" ;;
  dtend <- get eventOptions "dtend" ;;
  eventName <- get eventOptions "eventName" ;;
  description <- get eventOptions "description" ;;
  location <- get eventOptions "location" ;;
  attendees <- get eventOptions "attendees" ;;
  Ok (VObj [ ("dtstamp", VStr (validateDateStamp h dtstamp None));
             ("organizer", validateOrganizer organizer);
             ("dtstart", VStr (validateDateStart h dtstart));
             ("dtend", VStr (validateDateEnd h dtend));
             ("summary", js_or eventName (VStr DEFAULT_EVENT_NAME));
             ("description", js_or description (VStr ""));
             ("location", js_or location (VBool false));
             ("attendees", validateAttendees attendees) ]).

Definition validateCalendarOptions (h : Host) (calendarOptions filePath : Value)
    : Res Value :=
  isValid <- get calendarOptions "isValid" ;;
  if truthy isValid then Ok calendarOptions
  else
    filename <- get calendarOptions "filename" ;;
    validPath <- validateFilePath h filename filePath ;;
    events <- get calendarOptions "events" ;;
    validEvents <-
      (if truthy events
       then mapM (validateEventOptions h) (collection events)
       else (event <- validateEventOptions h (VObj []) ;; Ok [event])) ;;
    timeZone <- get calendarOptions "timeZone" ;;
    Ok (VObj [ ("filePath", validPath);
               ("events", VArr validEvents);
               ("timeZone", js_or timeZone (VStr (guessedTimezone h))) ]).

(** *** Real formatter stuff *)

Definition formatCalendar (h : Host) (formattedEvents : string) : string :=
  join (SYSTEM_LINE_BREAK h)
       [calendarHeader h; formattedEvents; calendarFooter].

(** The lines pushed on [parts], in order. *)
Definition eventParts (h : Host) (event options : Value) : Res (list string) :=
  timeZone <- get options "timeZone" ;;
  dtstamp <- get event "dtstamp" ;;
  dtstart <- get event "dtstart" ;;
  dtend <- get event "dtend" ;;
  attendees <- get event "attendees" ;;
  organizer <- get event "organizer" ;;
  location <- get event "location" ;;
  description <- get event "description" ;;
  summary <- get event "summary" ;;
  organizerPart <-
    (if truthy organizer
     then (line <- fmt_organizer organizer ;; Ok [line])
     else Ok []) ;;
  attendeeParts <-
    (if truthy attendees
     then mapM fmt_attendee (collection attendees)
     else Ok []) ;;
  Ok ([eventHeader h dtstamp timeZone]
      ++ organizerPart
      ++ attendeeParts
      ++ [fmt_dtstart dtstart timeZone; fmt_dtend dtend timeZone]
      ++ (if truthy location then [fmt_location location] else [])
      ++ [fmt_description description; fmt_summary summary; eventFooter])%list.

Definition formatEvent (h : Host) (event options : Value) : Res string :=
  parts <- eventParts h event options ;;
  Ok (join (SYSTEM_LINE_BREAK h) parts).

(** *** Writing the file *)

(** One invocation of the completion callback: its arguments. *)
Definition Call : Type := list Value.

Definition io_error (code : string) : Value := VObj [("code", VStr code)].

(** [fs.writeFile(file, data, callback)]: a file name that is not a string
    is refused at once; otherwise the callback runs once, with the error
    as its only argument, [null] when the write went through. *)
Definition fs_writeFile (h : Host) (file : Value) (data : string)
    (callback : list Value -> list Call) : Res (list Call) :=
  match file with
  | VStr path =>
      Ok (match writeFile_error h path data with
          | Some code => callback [io_error code]
          | None => callback [VNull]
          end)
  | _ => Throw (TypeError "The path argument must be of type string")
  end.

(** The calls of the user's [callback] that [toFile] leads to. *)
Definition toFile (h : Host) (data : string) (filePath : Value)
    : Res (list Call) :=
  fs_writeFile h filePath data (fun args =>
    let err := nth 0 args VUndefined in
    let destination := nth 1 args VUndefined in
    if truthy err then [[err]] else [[VNull; destination]]).

(** *** Entry points *)

(** [_.omit(calendarOptions, 'isValid')] builds a copy and leaves its
    argument as it is; the copy is dropped. *)
Definition getCalendar (h : Host) (calendarOptions : Value) : Res string :=
  validatedCalendarOptions <- validateCalendarOptions h calendarOptions VUndefined ;;
  events <- get validatedCalendarOptions "events" ;;
  formattedEvents <-
    mapM (fun event => formatEvent h event validatedCalendarOptions)
         (collection events) ;;
  Ok (formatCalendar h (join (SYSTEM_LINE_BREAK h) formattedEvents)).

Definition createCalendar (h : Host) (calendarOptions filePath : Value)
    : Res (list Call) :=
  validatedCalendarOptions <- validateCalendarOptions h calendarOptions filePath ;;
  data <- getCalendar h validatedCalendarOptions ;;
  validPath <- get validatedCalendarOptions "filePath" ;;
  toFile h data validPath.

(** ** The first revision (first listing of src/index.js)

    There is no [timeZone] option: [timeProperty] reads the time zone
    guessed at load time.  [validateFilePath] picks the default file name
    and then overwrites it. *)
Module Rev1.

Definition timeProperty (h : Host) (name : string) (dtstamp : Value) : string :=
  name ++ ";TZID=" ++ guessedTimezone h ++ ":" ++ toString dtstamp.

Definition eventHeader (h : Host) (dtstamp : Value) : string :=
  join (SYSTEM_LINE_BREAK h)
       [""; "BEGIN:VEVENT"; timeProperty h "DTSTAMP" dtstamp].

Definition fmt_dtstart (h : Host) (dtstamp : Value) : string :=
  timeProperty h "DTSTART" dtstamp.

Definition fmt_dtend (h : Host) (dtstamp : Value) : string :=
  timeProperty h "DTEND" dtstamp.

Definition validateFilePath (h : Host) (fileName filePath : Value) : Res Value :=
  if truthy filePath then Ok filePath
  else
    let validFileName := if truthy fileName then fileName
                         else VStr DEFAULT_FILE_NAME in
    let validFileName :=
      if endsWith fileName ".ics" then fileName
      else VStr (toString fileName ++ ".ics") in
    match validFileName with
    | VStr name => Ok (VStr (path_join h (TMPDIR h) name))
    | _ => Throw (TypeError "Path must be a string")
    end.

Definition validateCalendarOptions (h : Host) (calendarOptions filePath : Value)
    : Res Value :=
  isValid <- get calendarOptions "isValid" ;;
  if truthy isValid then Ok calendarOptions
  else
    filename <- get calendarOptions "filename" ;;
    validPath <- validateFilePath h filename filePath ;;
    events <- get calendarOptions "events" ;;
    validEvents <-
      (if truthy events
       then mapM (validateEventOptions h) (collection events)
       else (event <- validateEventOptions h (VObj []) ;; Ok [event])) ;;
    Ok (VObj [ ("filePath", validPath); ("events", VArr validEvents) ]).

Definition eventParts (h : Host) (validatedOptions : Value) : Res (list string) :=
  dtstamp <- get validatedOptions "dtstamp" ;;
  organizer <- get validatedOptions "organizer" ;;
  organizerPart <-
    (if truthy organizer
     then (line <- fmt_organizer organizer ;; Ok [line])
     else Ok []) ;;
  attendees <- get validatedOptions "attendees" ;;
  attendeeParts <-
    (if truthy attendees
     then mapM fmt_attendee (collection attendees)
     else Ok []) ;;
  dtstart <- get validatedOptions "dtstart" ;;
  dtend <- get validatedOptions "dtend" ;;
  location <- get validatedOptions "location" ;;
  description <- get validatedOptions "description" ;;
  summary <- get validatedOptions "summary" ;;
  Ok ([eventHeader h dtstamp]
      ++ organizerPart
      ++ attendeeParts
      ++ [fmt_dtstart h dtstart; fmt_dtend h dtend]
      ++ (if truthy location then [fmt_location location] else [])
      ++ [fmt_description description; fmt_summary summary; eventFooter])%list.

Definition formatEvent (h : Host) (validatedOptions : Value) : Res string :=
  parts <- eventParts h validatedOptions ;;
  Ok (join (SYSTEM_LINE_BREAK h) parts).

Definition getCalendar (h : Host) (calendarOptions : Value) : Res string :=
  validatedCalendarOptions <- validateCalendarOptions h calendarOptions VUndefined ;;
  events <- get validatedCalendarOptions "events" ;;
  formattedEvents <- mapM (formatEvent h) (collection events) ;;
  Ok (formatCalendar h (join (SYSTEM_LINE_BREAK h) formattedEvents)).

Definition createCalendar (h : Host) (calendarOptions filePath : Value)
    : Res (list Call) :=
  validatedCalendarOptions <- validateCalendarOptions h calendarOptions filePath ;;
  data <- getCalendar h validatedCalendarOptions ;;
  validPath <- get validatedCalendarOptions "filePath" ;;
  toFile h data validPath.

End Rev1.

(** ** The second revision (src/unnamed/part_000)

    It differs from the first in [validateFilePath] only: the default file
    name now decides the suffix test, and the file name itself is still
    what goes to [path.join]. *)
Module Rev2.

Definition validateFilePath (h : Host) (fileName filePath : Value) : Res Value :=
  if truthy filePath then Ok filePath
  else
    let validFileName :=
      if endsWith (js_or fileName (VStr DEFAULT_FILE_NAME)) ".ics" then fileName
      else VStr (toString fileName ++ ".ics") in
    match validFileName with
    | VStr name => Ok (VStr (path_join h (TMPDIR h) name))
    | _ => Throw (TypeError "Path must be a string")
    end.

Definition validateCalendarOptions (h : Host) (calendarOptions filePath : Value)
    : Res Value :=
  isValid <- get calendarOptions "isValid" ;;
  if truthy isValid then Ok calendarOptions
  else
    filename <- get calendarOptions "filename" ;;
    validPath <- validateFilePath h filename filePath ;;
    events <- get calendarOptions "events" ;;
    validEvents <-
      (if truthy events
       then mapM (validateEventOptions h) (collection events)
       else (event <- validateEventOptions h (VObj []) ;; Ok [event])) ;;
    Ok (VObj [ ("filePath", validPath); ("events", VArr validEvents) ]).

(** [formatEvent] is the first revision's. *)
Definition getCalendar (h : Host) (calendarOptions : Value) : Res string :=
  validatedCalendarOptions <- validateCalendarOptions h calendarOptions VUndefined ;;
  events <- get validatedCalendarOptions "events" ;;
  formattedEvents <- mapM (Rev1.formatEvent h) (collection events) ;;
  Ok (formatCalendar h (join (SYSTEM_LINE_BREAK h) formattedEvents)).

Definition createCalendar (h : Host) (calendarOptions filePath : Value)
    : Res (list Call) :=
  validatedCalendarOptions <- validateCalendarOptions h calendarOptions filePath ;;
  data <- getCalendar h validatedCalendarOptions ;;
  validPath <- get validatedCalendarOptions "filePath" ;;
  toFile h data validPath.

End Rev2.

(** ** Shapes of the inputs

    The option objects are untyped in the code.  The predicates below say
    what a raw input, filled in as the interface describes it, looks like,
    and what a canonical (validated) structure looks like. *)

Definition absent (v : Value) : bool :=
  match v with
  | VUndefined | VNull => true
  | _ => false
  end.

Definition is_string (v : Value) : bool :=
  match v with
  | VStr _ => true
  | _ => false
  end.

Definition is_bool (v : Value) : bool :=
  match v with
  | VBool _ => true
  | _ => false
  end.

Definition is_false (v : Value) : bool :=
  match v with
  | VBool false => true
  | _ => false
  end.

Definition nonempty_string (v : Value) : bool :=
  match v with
  | VStr s => negb (s =? "")
  | _ => false
  end.

Definition opt_string (v : Value) : bool := absent v || is_string v.
Definition opt_bool (v : Value) : bool := absent v || is_bool v.

Definition opt_list (elem : Value -> bool) (v : Value) : bool :=
  match v with
  | VUndefined | VNull => true
  | VArr l => forallb elem l
  | _ => false
  end.

Definition is_object (v : Value) : bool :=
  match v with
  | VObj _ => true
  | _ => false
  end.

(** A raw person: [{name, email, rsvp}], each field optional. *)
Definition raw_person (p : Value) : bool :=
  is_object p
  && opt_string (prop p "name") && opt_string (prop p "email")
  && opt_bool (prop p "rsvp").

(** A raw event, as in the table of event options. *)
Definition raw_event (e : Value) : bool :=
  is_object e
  && opt_string (prop e "dtstamp") && opt_string (prop e "dtstart")
  && opt_string (prop e "dtend") && opt_string (prop e "eventName")
  && opt_string (prop e "description") && opt_string (prop e "location")
  && (absent (prop e "organizer") || raw_person (prop e "organizer"))
  && opt_list raw_person (prop e "attendees").

(** Raw calendar options, as in the table of calendar options. *)
Definition raw_calendar (c : Value) : bool :=
  is_object c
  && opt_string (prop c "filename") && opt_string (prop c "timeZone")
  && opt_bool (prop c "isValid")
  && opt_list raw_event (prop c "events").

(** A valid person: name and email are non-empty strings. *)
Definition canonical_person (p : Value) : bool :=
  is_object p
  && nonempty_string (prop p "name") && nonempty_string (prop p "email").

Definition canonical_attendee (p : Value) : bool :=
  canonical_person p && is_bool (prop p "rsvp").

(** A canonical event: the eight fields, with [false] as the absent
    marker of [location] and [organizer]. *)
Definition canonical_event (e : Value) : bool :=
  is_object e
  && is_string (prop e "dtstamp") && is_string (prop e "dtstart")
  && is_string (prop e "dtend") && is_string (prop e "summary")
  && is_string (prop e "description")
  && (is_false (prop e "location") || nonempty_string (prop e "location"))
  && (is_false (prop e "organizer") || canonical_person (prop e "organizer"))
  && match prop e "attendees" with
     | VArr l => forallb canonical_attendee l
     | _ => false
     end.

(** Canonical calendar options that carry the pre-validated marker. *)
Definition canonical_calendar (c : Value) : bool :=
  is_object c
  && match prop c "isValid" with VBool true => true | _ => false end
  && is_string (prop c "filePath") && is_string (prop c "timeZone")
  && match prop c "events" with
     | VArr l => forallb canonical_event l
     | _ => false
     end.

(** The eight fields of a canonical event. *)
Definition EVENT_FIELDS : list string :=
  [ "dtstamp"; "organizer"; "dtstart"; "dtend"; "summary"; "description";
    "location"; "attendees" ].

Definition is_undefined (v : Value) : bool :=
  match v with
  | VUndefined => true
  | _ => false
  end.

Definition all_fields_defined (e : Value) : bool :=
  forallb (fun k => negb (is_undefined (prop e k))) EVENT_FIELDS.

(** ** The data model and the rendering rules, as the specification words
    them

    Typed records for a person and a canonical event, and the event block
    written line by line.  They are what the code is compared with. *)
Module Spec.

Record Person : Type := {
  name : string;
  email : string;
  rsvp : bool
}.

Record EventOptions : Type := {
  dtstamp : string;
  dtstart : string;
  dtend : string;
  summary : string;
  description : string;
  location : option string;
  organizer : option Person;
  attendees : list Person
}.

Definition time_line (prop_name tz stamp : string) : string :=
  prop_name ++ ";TZID=" ++ tz ++ ":" ++ stamp.

Definition organizer_line (p : Person) : string :=
  "ORGANIZER;CN=" ++ name p ++ ":MAILTO:" ++ email p.

Definition attendee_line (p : Person) : string :=
  "ATTENDEE;CN=" ++ DQUOTE ++ name p ++ DQUOTE ++ ";RSVP="
  ++ (if rsvp p then "true" else "false") ++ ":MAILTO:" ++ email p.

(** The event block, rules 1 to 11. *)
Definition event_block (tz : string) (e : EventOptions) : list string :=
  ([ ""; "BEGIN:VEVENT"; time_line "DTSTAMP" tz (dtstamp e) ]
   ++ match organizer e with
      | Some p => [organizer_line p]
      | None => []
      end
   ++ map attendee_line (attendees e)
   ++ [ time_line "DTSTART" tz (dtstart e); time_line "DTEND" tz (dtend e) ]
   ++ match location e with
      | Some l => [("LOCATION:" ++ l)%string]
      | None => []
      end
   ++ [ ("DESCRIPTION:" ++ description e)%string;
        ("SUMMARY:" ++ summary e)%string; "END:VEVENT" ])%list.

(** The whole document: header, the event blocks, footer.  With no event
    the code still joins an empty text between header and footer. *)
Definition calendar_lines (blocks : list (list string)) : list string :=
  ([ "BEGIN:VCALENDAR"; "VERSION:2.0" ]
   ++ match blocks with
      | [] => [""]
      | _ => concat blocks
      end
   ++ [ "END:VCALENDAR" ])%list.

(** The person-validity check: both name and email non-empty. *)
Definition valid_person (p : Value) : bool :=
  nonempty_string (prop p "name") && nonempty_string (prop p "email").

(** The validated copy of an attendee: name, email, and the supplied
    [rsvp] or [false]. *)
Definition attendee_copy (p : Value) : Value :=
  VObj [ ("email", prop p "email");
         ("name", prop p "name");
         ("rsvp", match prop p "rsvp" with
                  | VBool b => VBool b
                  | _ => VBool false
                  end) ].

End Spec.

(** Reading a canonical structure back into the typed records. *)
Definition decode_person (p : Value) : Spec.Person :=
  {| Spec.name := toString (prop p "name");
     Spec.email := toString (prop p "email");
     Spec.rsvp := match prop p "rsvp" with VBool b => b | _ => false end |}.

Definition decode_event (e : Value) : Spec.EventOptions :=
  {| Spec.dtstamp := toString (prop e "dtstamp");
     Spec.dtstart := toString (prop e "dtstart");
     Spec.dtend := toString (prop e "dtend");
     Spec.summary := toString (prop e "summary");
     Spec.description := toString (prop e "description");
     Spec.location :=
       if truthy (prop e "location")
       then Some (toString (prop e "location")) else None;
     Spec.organizer :=
       if truthy (prop e "organizer")
       then Some (decode_person (prop e "organizer")) else None;
     Spec.attendees := map decode_person (collection (prop e "attendees")) |}.

(** The event every default comes together in. *)
Definition default_event (h : Host) : Spec.EventOptions :=
  {| Spec.dtstamp := format_ical h (now h);
     Spec.dtstart := format_ical h (now h);
     Spec.dtend := format_ical h (now h + 3600000);
     Spec.summary := "New Event";
     Spec.description := "";
     Spec.location := None;
     Spec.organizer := None;
     Spec.attendees := [] |}.

(** How often a line occurs in a list of lines. *)
Fixpoint count_line (x : string) (l : list string) : nat :=
  match l with
  | [] => O
  | y :: rest => ((if (y =? x)%string then 1 else 0) + count_line x rest)%nat
  end.

(** How often [pat] occurs in [s], overlaps included. *)
Fixpoint occurrences (pat s : string) : nat :=
  match s with
  | EmptyString => O
  | String _ rest =>
      ((if prefix pat s then 1 else 0) + occurrences pat rest)%nat
  end.

(** The two values [os.EOL] takes. *)
Definition LF : string := String (ascii_of_nat 10) EmptyString.
Definition CRLF : string := String (ascii_of_nat 13) LF.

(** ** Sample hosts *)

(** A POSIX host on Paris winter time whose clock reads
    2020-01-01T00:00:00Z and whose writes succeed. *)
Definition sample_host : Host :=
  {| TMPDIR := "/tmp";
     SYSTEM_LINE_BREAK := LF;
     guessedTimezone := "Europe/Paris";
     now := 1577836800000;
     utcOffset := fun _ => 60%Z;
     moment_lenient := fun _ => None;
     path_join := fun dir file => dir ++ "/" ++ file;
     writeFile_error := fun _ _ => None |}.

(** The same host with a file system that refuses every write. *)
Definition readonly_host : Host :=
  {| TMPDIR := "/tmp";
     SYSTEM_LINE_BREAK := LF;
     guessedTimezone := "Europe/Paris";
     now := 1577836800000;
     utcOffset := fun _ => 60%Z;
     moment_lenient := fun _ => None;
     path_join := fun dir file => dir ++ "/" ++ file;
     writeFile_error := fun _ _ => Some "EACCES" |}.

(** A host further east, later in the year. *)
Definition later_host : Host :=
  {| TMPDIR := "/var/tmp";
     SYSTEM_LINE_BREAK := LF;
     guessedTimezone := "Europe/Paris";
     now := 1600000000000;
     utcOffset := fun _ => 120%Z;
     moment_lenient := fun _ => None;
     path_join := fun dir file => dir ++ "/" ++ file;
     writeFile_error := fun _ _ => None |}.

(** The same host on UTC. *)
Definition utc_host : Host :=
  {| TMPDIR := "/tmp";
     SYSTEM_LINE_BREAK := LF;
     guessedTimezone := "UTC";
     now := 1577836800000;
     utcOffset := fun _ => 0%Z;
     moment_lenient := fun _ => None;
     path_join := fun dir file => dir ++ "/" ++ file;
     writeFile_error := fun _ _ => None |}.

(** The object [validateEventOptions] makes of [{}]. *)
Definition default_event_object (h : Host) : Value :=
  VObj [ ("dtstamp", VStr (format_ical h (now h)));
         ("organizer", VBool false);
         ("dtstart", VStr (format_ical h (now h)));
         ("dtend", VStr (format_ical h (now h + 3600000)));
         ("summary", VStr "New Event");
         ("description", VStr "");
         ("location", VBool false);
         ("attendees", VArr []) ].


(** The events [getCalendar] formats: those of marked options as they are,
    else the validated events, else the one default event. *)
Definition formatted_events (h : Host) (c : Value) : Res (list Value) :=
  if truthy (prop c "isValid") then Ok (collection (prop c "events"))
  else if truthy (prop c "events")
  then mapM (validateEventOptions h) (collection (prop c "events"))
  else Ok [default_event_object h].

(** The time zone [validateCalendarOptions] resolves for raw options. *)
Definition resolved_timeZone (h : Host) (c : Value) : string :=
  if truthy (prop c "timeZone") then toString (prop c "timeZone")
  else guessedTimezone h.



(** ** Sample inputs *)

(** A canonical event with an organizer, two attendees and a location. *)
Definition sample_event : Value :=
  VObj [ ("dtstamp", VStr "20200101T010000");
         ("organizer", VObj [("name", VStr "O"); ("email", VStr "o@x.com")]);
         ("dtstart", VStr "20200102T090000");
         ("dtend", VStr "20200102T100000");
         ("summary", VStr "Stand-up");
         ("description", VStr "");
         ("location", VStr "Room 1");
         ("attendees",
          VArr [ VObj [("email", VStr "a@x.com"); ("name", VStr "A");
                       ("rsvp", VBool false)];
                 VObj [("email", VStr "b@x.com"); ("name", VStr "B");
                       ("rsvp", VBool true)] ]) ].

Definition sample_options : Value := VObj [("timeZone", VStr "UTC")].

(** Canonical calendar options that carry the marker. *)
Definition sample_canonical_calendar : Value :=
  VObj [ ("isValid", VBool true);
         ("filePath", VStr "/tmp/meeting.ics");
         ("timeZone", VStr "UTC");
         ("events", VArr [sample_event]) ].

(** A raw event as a caller would write it. *)
Definition sample_raw_event : Value :=
  VObj [ ("eventName", VStr "Stand-up");
         ("dtstart", VStr "2020-01-02T09:00:00+01:00");
         ("organizer", VObj [("name", VStr "O"); ("email", VStr "o@x.com")]);
         ("attendees",
          VArr [ VObj [("name", VStr "A"); ("email", VStr "a@x.com")];
                 VObj [("name", VStr "B")] ]) ].

(** Raw calendar options with a time zone and one event. *)
Definition sample_raw_calendar : Value :=
  VObj [ ("timeZone", VStr "UTC"); ("events", VArr [sample_raw_event]) ].

(** Options that carry the marker and no time zone. *)
Definition marked_without_timeZone : Value :=
  VObj [ ("isValid", VBool true); ("events", VArr [sample_event]) ].

(** Options that carry the marker and no events. *)
Definition marked_without_events : Value :=
  VObj [ ("isValid", VBool true); ("timeZone", VStr "UTC") ].

(** ** Timestamps, as the specification words them

    The canonical form [YYYYMMDDTHHmmss] written digit by digit, and the
    well-formed inputs [YYYY-MM-DDTHH:mm:ss] followed by [Z] or by a signed
    [HH:mm] offset. *)

Section Timestamps.
Local Open Scope Z_scope.

Definition digit (d : Z) : ascii := ascii_of_nat (48 + Z.to_nat d).

Definition two_digits (n : Z) : string :=
  String (digit (n / 10)) (String (digit (n mod 10)) EmptyString).

Definition four_digits (n : Z) : string :=
  String (digit (n / 1000))
    (String (digit (n / 100 mod 10))
       (String (digit (n / 10 mod 10))
          (String (digit (n mod 10)) EmptyString))).



Inductive Offset : Type :=
| OffsetZ
| OffsetHM (east : bool) (hours minutes : Z).

Definition offset_string (off : Offset) : string :=
  match off with
  | OffsetZ => "Z"%string
  | OffsetHM east hours minutes =>
      ((if east then "+" else "-")
       ++ two_digits hours ++ ":" ++ two_digits minutes)%string
  end.

Definition offset_minutes (off : Offset) : Z :=
  match off with
  | OffsetZ => 0
  | OffsetHM east hours minutes =>
      if east then hours * 60 + minutes else - (hours * 60 + minutes)
  end.

Definition iso_string (y m d hh mm ss : Z) (off : Offset) : string :=
  (four_digits y ++ "-" ++ two_digits m ++ "-" ++ two_digits d ++ "T"
   ++ two_digits hh ++ ":" ++ two_digits mm ++ ":" ++ two_digits ss
   ++ offset_string off)%string.

Definition offset_in_range (off : Offset) : bool :=
  match off with
  | OffsetZ => true
  | OffsetHM _ hours minutes =>
      (0 <=? hours) && (hours <=? 23) && (0 <=? minutes) && (minutes <=? 59)
  end.

(** A date and time of day that exist, with a four-digit year. *)
Definition well_formed (y m d hh mm ss : Z) (off : Offset) : bool :=
  (0 <=? y) && (y <=? 9999)
  && (1 <=? m) && (m <=? 12)
  && (1 <=? d) && (d <=? days_in_month y m)
  && (0 <=? hh) && (hh <=? 23)
  && (0 <=? mm) && (mm <=? 59)
  && (0 <=? ss) && (ss <=? 59)
  && offset_in_range off.

(** [f] holds on the [2 ^ k] consecutive integers from [i] on. *)
Fixpoint check_block (f : Z -> bool) (k : nat) (i : Z) : bool :=
  match k with
  | O => f i
  | S k' => check_block f k' i && check_block f k' (i + 2 ^ Z.of_nat k')
  end.

(** [f] holds from 0 up to, and without, [bound], provided
    [bound <= 2 ^ k]. *)
Definition check_below (f : Z -> bool) (k : nat) (bound : Z) : bool :=
  check_block (fun i => if i <? bound then f i else true) k 0.


End Timestamps.


(** ** Further reference definitions *)

(** [e'] is [e] with the default name; the timestamps are left free. *)
Definition renamed_copy (e e' : Spec.EventOptions) : Prop :=
  Spec.summary e' = DEFAULT_EVENT_NAME
  /\ Spec.description e' = Spec.description e
  /\ Spec.location e' = Spec.location e
  /\ Spec.organizer e' = Spec.organizer e
  /\ Spec.attendees e' = Spec.attendees e.

(** An event object with no organizer, no location and no attendees. *)
Definition plain_event (stamp start finish summary description : string)
    : Value :=
  VObj [ ("dtstamp", VStr stamp);
         ("organizer", VBool false);
         ("dtstart", VStr start);
         ("dtend", VStr finish);
         ("summary", VStr summary);
         ("description", VStr description);
         ("location", VBool false);
         ("attendees", VArr []) ].

Section DateChecks.
Local Open Scope Z_scope.

(** The year of the era that [civil_of_doe] computes for a day of the
    era. *)
Definition year_of_doe (doe : Z) : Z :=
  (doe - doe / 1460 + doe / 36524 - doe / 146096) / 365.

(** The day of the era on which the year [yoe] of the era starts (on
    1 March), as [days_from_civil] counts it. *)
Definition year_start (yoe : Z) : Z := yoe * 365 + yoe / 4 - yoe / 100.

(** The last day of the year [yoe] of the era, which ends in the February
    of the following civil year. *)
Definition year_end (yoe : Z) : Z :=
  year_start yoe + 364 + (if is_leap (yoe + 1) then 1 else 0).

(** The first and the last day of the year [yoe] of the era are within the
    era and are mapped back to [yoe]. *)
Definition year_ends_found (yoe : Z) : bool :=
  (0 <=? year_start yoe) && (year_end yoe <=? 146096)
  && (year_of_doe (year_start yoe) =? yoe)
  && (year_of_doe (year_end yoe) =? yoe).

End DateChecks.
(** * Properties *)

(** ** Strings and lines *)

Lemma append_assoc (a b c : string) : (a ++ b) ++ c = a ++ b ++ c.
Proof. induction a as [|ch a IH]; simpl; [reflexivity | now rewrite IH]. Qed.

Lemma append_nil_r (a : string) : a ++ "" = a.
Proof. induction a as [|ch a IH]; simpl; [reflexivity | now rewrite IH]. Qed.

Lemma join_cons (sep x : string) (l : list string) :
  l <> [] -> join sep (x :: l) = x ++ sep ++ join sep l.
Proof. destruct l; [congruence | reflexivity]. Qed.

(** Joining a joined group with what follows is joining all the lines. *)
Lemma join_flatten (sep : string) (l1 l2 : list string) :
  l1 <> [] -> join sep (join sep l1 :: l2) = join sep (l1 ++ l2)%list.
Proof.
  induction l1 as [|x l1 IH]; intros Hne; [congruence|].
  destruct l1 as [|y l1].
  - reflexivity.
  - change (join sep (x :: y :: l1)) with (x ++ sep ++ join sep (y :: l1)).
    change ((x :: y :: l1) ++ l2)%list with (x :: ((y :: l1) ++ l2))%list.
    rewrite (join_cons sep x) by (simpl; congruence).
    rewrite <- IH by congruence.
    destruct l2 as [|z l2].
    + reflexivity.
    + rewrite !(join_cons sep _ (z :: l2)) by congruence.
      now rewrite !append_assoc.
Qed.

Lemma join_concat (sep : string) (blocks : list (list string)) :
  Forall (fun b => b <> []) blocks -> blocks <> [] ->
  join sep (map (join sep) blocks) = join sep (concat blocks).
Proof.
  induction blocks as [|b blocks IH]; intros Hall Hne; [congruence|].
  inversion Hall as [|? ? Hb Hrest]; subst.
  destruct blocks as [|b' blocks].
  - simpl. now rewrite app_nil_r.
  - change (map (join sep) (b :: b' :: blocks))
      with (join sep b :: map (join sep) (b' :: blocks)).
    change (concat (b :: b' :: blocks)) with (b ++ concat (b' :: blocks))%list.
    rewrite join_cons by (simpl; congruence).
    rewrite IH by (auto; congruence).
    rewrite <- join_cons.
    + now apply join_flatten.
    + inversion Hrest; subst. destruct b'; simpl; congruence.
Qed.

Lemma join_flatten_mid (sep : string) (pre l post : list string) :
  l <> [] ->
  join sep (pre ++ join sep l :: post)%list = join sep (pre ++ l ++ post)%list.
Proof.
  intros Hl. induction pre as [|x pre IH].
  - simpl. now apply join_flatten.
  - change ((x :: pre) ++ join sep l :: post)%list
      with (x :: (pre ++ join sep l :: post))%list.
    change ((x :: pre) ++ l ++ post)%list with (x :: (pre ++ l ++ post))%list.
    rewrite !join_cons.
    + now rewrite IH.
    + destruct pre, l; simpl; congruence.
    + destruct pre; simpl; congruence.
Qed.

Lemma length_append (a b : string) :
  String.length (a ++ b) = (String.length a + String.length b)%nat.
Proof. induction a as [|c a IH]; simpl; [reflexivity | now rewrite IH]. Qed.

Lemma substring_all (s : string) : substring 0 (String.length s) s = s.
Proof. induction s as [|c s IH]; simpl; [reflexivity | now rewrite IH]. Qed.

Lemma substring_append (p t : string) :
  substring (String.length p) (String.length t) (p ++ t) = t.
Proof. induction p as [|c p IH]; simpl; [apply substring_all | exact IH]. Qed.

Lemma substring_suffix (s t : string) :
  (String.length t <= String.length s)%nat ->
  substring (String.length s - String.length t) (String.length t) s = t ->
  exists p, s = p ++ t.
Proof.
  induction s as [|c s IH]; intros Hlen Hsub.
  - destruct t; simpl in *; [now exists "" | lia].
  - destruct (Nat.eq_dec (String.length t) (String.length (String c s)))
      as [Heq|Hne].
    + rewrite Heq, Nat.sub_diag, substring_all in Hsub. now exists "".
    + simpl in Hlen, Hne.
      assert (Hlt : (String.length t <= String.length s)%nat) by lia.
      change (String.length (String c s)) with (S (String.length s)) in Hsub.
      rewrite Nat.sub_succ_l in Hsub by exact Hlt.
      cbn [substring] in Hsub. destruct (IH Hlt Hsub) as [p ->].
      now exists (String c p).
Qed.

(** [_.endsWith] on a string says whether it ends in the target. *)
Lemma endsWith_suffix (s target : string) :
  endsWith (VStr s) target = true <-> exists p, s = p ++ target.
Proof.
  unfold endsWith. cbn [lodash_toString toString]. split.
  - intros H. apply andb_prop in H. destruct H as [Hlen Hsub].
    apply Nat.leb_le in Hlen. apply String.eqb_eq in Hsub.
    now apply substring_suffix.
  - intros [p ->]. rewrite length_append. apply andb_true_intro. split.
    + apply Nat.leb_le. lia.
    + replace (String.length p + String.length target - String.length target)%nat
        with (String.length p) by lia.
      rewrite substring_append. apply String.eqb_refl.
Qed.

(** ** Values, lists and results *)

Lemma truthy_prop_not_absent (v : Value) (k : string) :
  truthy (prop v k) = true -> get v k = Ok (prop v k).
Proof. destruct v; simpl; intros H; try discriminate; reflexivity. Qed.

Lemma get_truthy (v : Value) (k : string) :
  truthy v = true -> get v k = Ok (prop v k).
Proof. destruct v; simpl; intros H; try discriminate; reflexivity. Qed.

Lemma mapM_ok {A B} (f : A -> Res B) (g : A -> B) (l : list A) :
  (forall x, In x l -> f x = Ok (g x)) -> mapM f l = Ok (map g l).
Proof.
  induction l as [|x l IH]; intros H; simpl; [reflexivity|].
  rewrite (H x) by now left. simpl.
  rewrite IH by (intros; apply H; now right). reflexivity.
Qed.

Lemma filter_agree {A} (f g : A -> bool) (l : list A) :
  (forall x, In x l -> f x = g x) -> filter f l = filter g l.
Proof.
  induction l as [|x l IH]; intros H; simpl; [reflexivity|].
  rewrite (H x) by now left.
  rewrite IH by (intros; apply H; now right). reflexivity.
Qed.

Ltac split_andb :=
  repeat match goal with
         | H : (_ && _)%bool = true |- _ =>
             apply andb_prop in H; destruct H
         end.

(** ** C6: attendees *)

Lemma isValidPerson_valid_person (p : Value) :
  raw_person p = true ->
  truthy (isValidPerson p) = Spec.valid_person p.
Proof.
  unfold raw_person, isValidPerson, Spec.valid_person. intros H. split_andb.
  destruct p; try discriminate. simpl in *.
  destruct (lookup "email" props) as [| |b|[|c s]|l|ps],
           (lookup "name" props) as [| |b'|[|c' s']|l'|ps'];
    try discriminate; reflexivity.
Qed.

Lemma validatedAttendee_copy (p : Value) :
  raw_person p = true -> validatedAttendee p = Spec.attendee_copy p.
Proof.
  unfold raw_person, validatedAttendee, Spec.attendee_copy. intros H. split_andb.
  destruct (prop p "rsvp") as [| |[|]|s|l|ps]; try discriminate; reflexivity.
Qed.

Lemma validateAttendees_spec (attendees : Value) :
  opt_list raw_person attendees = true ->
  validateAttendees attendees
  = VArr (map Spec.attendee_copy
              (filter Spec.valid_person (collection attendees))).
Proof.
  intros H. unfold validateAttendees. f_equal.
  assert (Hall : forall p, In p (collection attendees) -> raw_person p = true).
  { destruct attendees; simpl in *; try discriminate; try contradiction.
    intros p Hp. rewrite forallb_forall in H. now apply H. }
  rewrite (filter_agree _ Spec.valid_person).
  - apply map_ext_in. intros p Hp. apply validatedAttendee_copy.
    apply Hall. apply filter_In in Hp. tauto.
  - intros p Hp. now apply isValidPerson_valid_person, Hall.
Qed.

(** C6. On a raw attendee list, [validateAttendees] returns the entries
    whose name and email are both non-empty, in their original order and
    with duplicates kept (it is a filter of the list), each copied to a
    record of email, name and [rsvp], the latter being the supplied boolean
    or [false] when absent.  An absent list gives the empty list. *)
Theorem validateAttendees_filter_copy (attendees : Value) :
  opt_list raw_person attendees = true ->
  validateAttendees attendees
  = VArr (map Spec.attendee_copy
              (filter Spec.valid_person (collection attendees))).
Proof. exact (validateAttendees_spec attendees). Qed.

(** The attendees of the specification's example: A stays, with
    [rsvp] false; B, who has no email, goes. *)
Lemma validateAttendees_filter_copy_witness :
  validateAttendees
    (VArr [ VObj [("name", VStr "A"); ("email", VStr "a@x.com")];
            VObj [("name", VStr "B")] ])
  = VArr [ VObj [("email", VStr "a@x.com"); ("name", VStr "A");
                 ("rsvp", VBool false)] ].
Proof.
  apply (validateAttendees_filter_copy
           (VArr [ VObj [("name", VStr "A"); ("email", VStr "a@x.com")];
                   VObj [("name", VStr "B")] ])).
  reflexivity.
Defined.

(** Duplicates stay, and so does the order. *)
Example validateAttendees_keeps_duplicates :
  validateAttendees
    (VArr [ VObj [("name", VStr "B"); ("email", VStr "b@x"); ("rsvp", VBool true)];
            VObj [("name", VStr "A"); ("email", VStr "a@x")];
            VObj [("email", VStr "nobody@x")];
            VObj [("name", VStr "B"); ("email", VStr "b@x"); ("rsvp", VBool true)] ])
  = VArr [ VObj [("email", VStr "b@x"); ("name", VStr "B"); ("rsvp", VBool true)];
           VObj [("email", VStr "a@x"); ("name", VStr "A"); ("rsvp", VBool false)];
           VObj [("email", VStr "b@x"); ("name", VStr "B"); ("rsvp", VBool true)] ].
Proof. reflexivity. Qed.

(** ** C4: the event block *)

Lemma fmt_attendee_line (a : Value) :
  canonical_attendee a = true ->
  fmt_attendee a = Ok (Spec.attendee_line (decode_person a)).
Proof.
  unfold canonical_attendee, canonical_person, fmt_attendee,
    Spec.attendee_line, decode_person.
  intros H. split_andb. destruct a; try discriminate. simpl in *.
  destruct (lookup "rsvp" props) as [| |[|]|?|?|?]; try discriminate;
    reflexivity.
Qed.

Lemma fmt_organizer_line (o : Value) :
  canonical_person o = true ->
  fmt_organizer o = Ok (Spec.organizer_line (decode_person o)).
Proof.
  unfold canonical_person. intros H. split_andb.
  destruct o; try discriminate. reflexivity.
Qed.

Lemma canonical_person_truthy (o : Value) :
  canonical_person o = true -> truthy o = true.
Proof.
  unfold canonical_person. intros H. split_andb.
  destruct o; try discriminate. reflexivity.
Qed.

Lemma mapM_fmt_attendee (l : list Value) :
  forallb canonical_attendee l = true ->
  mapM fmt_attendee l = Ok (map Spec.attendee_line (map decode_person l)).
Proof.
  intros H. rewrite map_map. apply mapM_ok. intros a Ha.
  apply fmt_attendee_line. rewrite forallb_forall in H. now apply H.
Qed.

(** The parts pushed by the code are the lines of the block, the first
    three of them joined in the event header. *)
Lemma eventParts_block (h : Host) (event options : Value) :
  canonical_event event = true -> absent options = false ->
  exists rest,
    eventParts h event options
    = Ok (eventHeader h (prop event "dtstamp") (prop options "timeZone") :: rest)
    /\ Spec.event_block (toString (prop options "timeZone")) (decode_event event)
       = ([ ""; "BEGIN:VEVENT";
            timeProperty "DTSTAMP" (prop event "dtstamp")
                         (prop options "timeZone") ] ++ rest)%list.
Proof.
  unfold canonical_event. intros H Ho. split_andb.
  destruct event as [| | | | |ps]; try discriminate.
  assert (Hget : get options "timeZone" = Ok (prop options "timeZone"))
    by (destruct options; try discriminate; reflexivity).
  unfold eventParts. rewrite Hget. cbn [bind get prop] in *.
  unfold Spec.event_block, decode_event. cbn [prop].
  destruct (lookup "attendees" ps) as [| | | |atts|]; try discriminate.
  cbn [truthy collection]. rewrite (mapM_fmt_attendee atts) by assumption.
  assert (Horg :
    (if truthy (lookup "organizer" ps)
     then line <- fmt_organizer (lookup "organizer" ps) ;; Ok [line]
     else Ok [])
    = Ok (match (if truthy (lookup "organizer" ps)
                 then Some (decode_person (lookup "organizer" ps)) else None)
          with Some p => [Spec.organizer_line p] | None => [] end)).
  { match goal with
    | Hx : (is_false (lookup "organizer" ps) || _)%bool = true |- _ =>
        apply orb_prop in Hx; destruct Hx as [Hnone|Hsome]
    end.
    - destruct (lookup "organizer" ps) as [| |[|]| | |]; try discriminate.
      reflexivity.
    - rewrite (canonical_person_truthy _ Hsome), (fmt_organizer_line _ Hsome).
      reflexivity. }
  rewrite Horg. cbn [bind].
  eexists. split; [reflexivity|].
  simpl. unfold Spec.time_line, timeProperty, fmt_dtstart, fmt_dtend,
    fmt_location, fmt_description, fmt_summary, eventFooter.
  destruct (truthy (lookup "location" ps)); reflexivity.
Qed.

Lemma Rev1_eventParts_block (h : Host) (event : Value) :
  canonical_event event = true ->
  exists rest,
    Rev1.eventParts h event
    = Ok (Rev1.eventHeader h (prop event "dtstamp") :: rest)
    /\ Spec.event_block (guessedTimezone h) (decode_event event)
       = ([ ""; "BEGIN:VEVENT";
            Rev1.timeProperty h "DTSTAMP" (prop event "dtstamp") ] ++ rest)%list.
Proof.
  unfold canonical_event. intros H. split_andb.
  destruct event as [| | | | |ps]; try discriminate.
  unfold Rev1.eventParts. cbn [bind get prop] in *.
  unfold Spec.event_block, decode_event. cbn [prop].
  destruct (lookup "attendees" ps) as [| | | |atts|]; try discriminate.
  cbn [truthy collection]. rewrite (mapM_fmt_attendee atts) by assumption.
  assert (Horg :
    (if truthy (lookup "organizer" ps)
     then line <- fmt_organizer (lookup "organizer" ps) ;; Ok [line]
     else Ok [])
    = Ok (match (if truthy (lookup "organizer" ps)
                 then Some (decode_person (lookup "organizer" ps)) else None)
          with Some p => [Spec.organizer_line p] | None => [] end)).
  { match goal with
    | Hx : (is_false (lookup "organizer" ps) || _)%bool = true |- _ =>
        apply orb_prop in Hx; destruct Hx as [Hnone|Hsome]
    end.
    - destruct (lookup "organizer" ps) as [| |[|]| | |]; try discriminate.
      reflexivity.
    - rewrite (canonical_person_truthy _ Hsome), (fmt_organizer_line _ Hsome).
      reflexivity. }
  rewrite Horg. cbn [bind].
  eexists. split; [reflexivity|].
  simpl. unfold Spec.time_line, Rev1.timeProperty, Rev1.fmt_dtstart,
    Rev1.fmt_dtend, fmt_location, fmt_description, fmt_summary, eventFooter.
  destruct (truthy (lookup "location" ps)); reflexivity.
Qed.

Lemma formatEvent_canonical (h : Host) (event options : Value) :
  canonical_event event = true -> absent options = false ->
  formatEvent h event options
  = Ok (join (SYSTEM_LINE_BREAK h)
             (Spec.event_block (toString (prop options "timeZone"))
                               (decode_event event))).
Proof.
  intros He Ho. destruct (eventParts_block h event options He Ho)
    as [rest [Hparts Hblock]].
  unfold formatEvent. rewrite Hparts, Hblock. simpl bind. f_equal.
  unfold eventHeader. apply join_flatten. discriminate.
Qed.

Lemma Rev1_formatEvent_canonical (h : Host) (event : Value) :
  canonical_event event = true ->
  Rev1.formatEvent h event
  = Ok (join (SYSTEM_LINE_BREAK h)
             (Spec.event_block (guessedTimezone h) (decode_event event))).
Proof.
  intros He. destruct (Rev1_eventParts_block h event He)
    as [rest [Hparts Hblock]].
  unfold Rev1.formatEvent. rewrite Hparts, Hblock. simpl bind. f_equal.
  unfold Rev1.eventHeader. apply join_flatten. discriminate.
Qed.



(** The lines of the sample event, one by one. *)
Example sample_event_block :
  Spec.event_block "UTC" (decode_event sample_event)
  = [ ""; "BEGIN:VEVENT"; "DTSTAMP;TZID=UTC:20200101T010000";
      "ORGANIZER;CN=O:MAILTO:o@x.com";
      "ATTENDEE;CN=" ++ DQUOTE ++ "A" ++ DQUOTE ++ ";RSVP=false:MAILTO:a@x.com";
      "ATTENDEE;CN=" ++ DQUOTE ++ "B" ++ DQUOTE ++ ";RSVP=true:MAILTO:b@x.com";
      "DTSTART;TZID=UTC:20200102T090000"; "DTEND;TZID=UTC:20200102T100000";
      "LOCATION:Room 1"; "DESCRIPTION:"; "SUMMARY:Stand-up"; "END:VEVENT" ].
Proof. reflexivity. Qed.

(** ** C10: what the validator returns *)

Lemma validateOrganizer_cases (o : Value) :
  (absent o || raw_person o)%bool = true ->
  validateOrganizer o = VBool false
  \/ (validateOrganizer o = o /\ canonical_person o = true).
Proof.
  intros H. apply orb_prop in H. destruct H as [H|H].
  - left. destruct o; try discriminate; reflexivity.
  - unfold validateOrganizer. rewrite (isValidPerson_valid_person o H).
    destruct (Spec.valid_person o) eqn:Hv; [right | now left].
    split; [reflexivity|]. unfold canonical_person.
    unfold raw_person in H. split_andb.
    unfold Spec.valid_person in Hv. apply andb_prop in Hv.
    destruct Hv as [Hn He]. now rewrite H, Hn, He.
Qed.

Lemma attendee_copy_canonical (p : Value) :
  Spec.valid_person p = true ->
  canonical_attendee (Spec.attendee_copy p) = true.
Proof.
  unfold Spec.valid_person, canonical_attendee, canonical_person,
    Spec.attendee_copy.
  intros H. apply andb_prop in H. destruct H as [Hn He].
  cbn [prop lookup String.eqb Ascii.eqb Bool.eqb is_object andb].
  rewrite Hn, He. destruct (prop p "rsvp"); reflexivity.
Qed.

Lemma validateAttendees_canonical (attendees : Value) :
  opt_list raw_person attendees = true ->
  exists l, validateAttendees attendees = VArr l
            /\ forallb canonical_attendee l = true.
Proof.
  intros H. rewrite (validateAttendees_spec attendees H).
  eexists. split; [reflexivity|].
  apply forallb_forall. intros a Ha. apply in_map_iff in Ha.
  destruct Ha as [p [<- Hp]]. apply attendee_copy_canonical.
  apply filter_In in Hp. tauto.
Qed.

Lemma js_or_opt_string (v : Value) (d : string) :
  opt_string v = true -> is_string (js_or v (VStr d)) = true.
Proof.
  destruct v as [| | |[|c s]| |]; intros H; try discriminate; reflexivity.
Qed.

(** [validateEventOptions] throws on nothing but [null] and [undefined]. *)
Lemma validateEventOptions_returns (h : Host) (e : Value) :
  absent e = false ->
  validateEventOptions h e
  = Ok (VObj [ ("dtstamp", VStr (validateDateStamp h (prop e "dtstamp") None));
               ("organizer", validateOrganizer (prop e "organizer"));
               ("dtstart", VStr (validateDateStart h (prop e "dtstart")));
               ("dtend", VStr (validateDateEnd h (prop e "dtend")));
               ("summary", js_or (prop e "eventName") (VStr DEFAULT_EVENT_NAME));
               ("description", js_or (prop e "description") (VStr ""));
               ("location", js_or (prop e "location") (VBool false));
               ("attendees", validateAttendees (prop e "attendees")) ]).
Proof. destruct e; intros H; try discriminate; reflexivity. Qed.

Lemma js_or_defined (a b : Value) :
  is_undefined b = false -> is_undefined (js_or a b) = false.
Proof. unfold js_or. destruct a as [| |[|]|[|c s]| |]; auto. Qed.

(** Whatever the raw object holds, none of the eight fields of the result
    is left undefined. *)
Lemma validateEventOptions_fields_defined (h : Host) (e : Value) :
  absent e = false ->
  exists v, validateEventOptions h e = Ok v /\ all_fields_defined v = true.
Proof.
  intros H. rewrite (validateEventOptions_returns h e H).
  eexists. split; [reflexivity|].
  unfold all_fields_defined, EVENT_FIELDS.
  cbn [forallb prop lookup String.eqb Ascii.eqb Bool.eqb].
  rewrite !js_or_defined by reflexivity.
  unfold validateOrganizer, validateAttendees.
  destruct (truthy (isValidPerson (prop e "organizer"))) eqn:Ht.
  - destruct (prop e "organizer"); try discriminate; reflexivity.
  - reflexivity.
Qed.

(** The formatter does not throw on an event whose organizer is falsy or
    an object and whose attendees are objects. *)
Lemma mapM_fmt_attendee_objects (l : list Value) :
  forallb is_object l = true -> exists lines, mapM fmt_attendee l = Ok lines.
Proof.
  induction l as [|a l IH]; intros H; simpl in *.
  - now eexists.
  - apply andb_prop in H. destruct H as [Ha Hl].
    destruct a; try discriminate. destruct (IH Hl) as [lines Hlines].
    unfold fmt_attendee at 1. cbn [get bind]. rewrite Hlines. cbn [bind].
    now eexists.
Qed.

Lemma validated_event_canonical (h : Host) (e : Value) :
  raw_event e = true ->
  exists v,
    validateEventOptions h e = Ok v
    /\ canonical_event v = true
    /\ (prop v "location" = VBool false
        \/ prop v "location" = prop e "location")
    /\ (prop v "organizer" = VBool false
        \/ (prop v "organizer" = prop e "organizer"
            /\ canonical_person (prop e "organizer") = true)).
Proof.
  unfold raw_event. intros H. split_andb.
  assert (Ha : absent e = false) by (destruct e; try discriminate; reflexivity).
  rewrite (validateEventOptions_returns h e Ha).
  eexists. split; [reflexivity|].
  match goal with
  | Hatt : opt_list raw_person _ = true |- _ =>
      destruct (validateAttendees_canonical _ Hatt) as [atts [Hatts Hcan]]
  end.
  match goal with
  | Horg : (absent (prop e "organizer") || _)%bool = true |- _ =>
      pose proof (validateOrganizer_cases _ Horg) as Hcases
  end.
  unfold canonical_event.
  cbn [prop lookup String.eqb Ascii.eqb Bool.eqb is_object is_string andb].
  rewrite Hatts, Hcan.
  rewrite !js_or_opt_string by assumption.
  split; [|split].
  - cbn [andb]. rewrite andb_true_r. apply andb_true_intro. split.
    + unfold js_or.
      destruct (prop e "location") as [| |[|]|[|c s]| |];
        try discriminate; reflexivity.
    + destruct Hcases as [-> | [-> Hc]]; [reflexivity|].
      rewrite Hc. apply orb_true_r.
  - unfold js_or. destruct (truthy (prop e "location")); auto.
  - destruct Hcases as [-> | [-> Hc]]; auto.
Qed.

(** C10. For a raw event, [validateEventOptions] returns a structure with
    all eight canonical fields defined: [attendees] is a list (also when
    the raw field is absent), [organizer] is the raw organizer, then a valid
    person, or the absent marker [false], [location] is the supplied value
    or [false], and [summary], [description], [dtstamp], [dtstart] and
    [dtend] are strings; so the formatter reads no missing field and
    returns the event block. *)
Theorem validateEventOptions_canonical (h : Host) (e : Value) :
  raw_event e = true ->
  exists v,
    validateEventOptions h e = Ok v
    /\ all_fields_defined v = true
    /\ canonical_event v = true
    /\ (prop v "location" = VBool false
        \/ prop v "location" = prop e "location")
    /\ (prop v "organizer" = VBool false
        \/ (prop v "organizer" = prop e "organizer"
            /\ canonical_person (prop e "organizer") = true))
    /\ (forall options, absent options = false ->
          formatEvent h v options
          = Ok (join (SYSTEM_LINE_BREAK h)
                     (Spec.event_block (toString (prop options "timeZone"))
                                       (decode_event v)))).
Proof.
  intros H.
  destruct (validated_event_canonical h e H)
    as [v [Hv [Hcan [Hloc Horg]]]].
  exists v. repeat split; auto.
  - assert (Ha : absent e = false).
    { unfold raw_event in H. split_andb. destruct e; try discriminate.
      reflexivity. }
    destruct (validateEventOptions_fields_defined h e Ha) as [v' [Hv' Hdef]].
    congruence.
  - intros options Ho. now apply formatEvent_canonical.
Qed.

Lemma validateEventOptions_canonical_witness :
  exists v,
    validateEventOptions sample_host (VObj []) = Ok v
    /\ all_fields_defined v = true
    /\ canonical_event v = true
    /\ (prop v "location" = VBool false
        \/ prop v "location" = prop (VObj []) "location")
    /\ (prop v "organizer" = VBool false
        \/ (prop v "organizer" = prop (VObj []) "organizer"
            /\ canonical_person (prop (VObj []) "organizer") = true))
    /\ (forall options, absent options = false ->
          formatEvent sample_host v options
          = Ok (join (SYSTEM_LINE_BREAK sample_host)
                     (Spec.event_block (toString (prop options "timeZone"))
                                       (decode_event v)))).
Proof.
  apply (validateEventOptions_canonical sample_host (VObj [])). reflexivity.
Defined.

(** A raw event with every field filled in. *)
Example validateEventOptions_sample :
  validateEventOptions sample_host sample_raw_event
  = Ok (VObj [ ("dtstamp", VStr "20200101T010000");
               ("organizer", VObj [("name", VStr "O"); ("email", VStr "o@x.com")]);
               ("dtstart", VStr "20200102T090000");
               ("dtend", VStr "20200101T020000");
               ("summary", VStr "Stand-up");
               ("description", VStr "");
               ("location", VBool false);
               ("attendees",
                VArr [ VObj [("email", VStr "a@x.com"); ("name", VStr "A");
                             ("rsvp", VBool false)] ]) ]).
Proof. reflexivity. Qed.

(** ** C7: timestamps *)

Section TimestampFacts.
Local Open Scope Z_scope.

Lemma check_block_spec (f : Z -> bool) (k : nat) (i : Z) :
  check_block f k i = true ->
  forall j, i <= j < i + 2 ^ Z.of_nat k -> f j = true.
Proof.
  revert i. induction k as [|k IH]; intros i H j Hj.
  - simpl in Hj. assert (j = i) by lia. now subst.
  - cbn [check_block] in H. apply andb_prop in H. destruct H as [Hlo Hhi].
    rewrite Nat2Z.inj_succ, Z.pow_succ_r in Hj by lia.
    destruct (Z_lt_le_dec j (i + 2 ^ Z.of_nat k)) as [Hlt|Hge].
    + apply (IH i Hlo). lia.
    + apply (IH _ Hhi). lia.
Qed.

Lemma check_below_spec (f : Z -> bool) (k : nat) (bound : Z) :
  check_below f k bound = true -> bound <= 2 ^ Z.of_nat k ->
  forall j, 0 <= j < bound -> f j = true.
Proof.
  unfold check_below. intros H Hb j Hj.
  pose proof (check_block_spec _ _ _ H j ltac:(lia)) as Hf. cbn beta in Hf.
  destruct (Z.ltb_spec j bound); [assumption | lia].
Qed.

Lemma zeroFill_two_digits (n : Z) :
  0 <= n <= 99 -> zeroFill n 2 = two_digits n.
Proof.
  intros Hn.
  assert (H : check_below (fun k => (zeroFill k 2 =? two_digits k)%string)
                          7 100 = true) by (vm_compute; reflexivity).
  apply String.eqb_eq.
  apply (check_below_spec _ _ _ H); [vm_compute; discriminate | lia].
Qed.

Lemma zeroFill_four_digits (n : Z) :
  0 <= n <= 9999 -> zeroFill n 4 = four_digits n.
Proof.
  intros Hn.
  assert (H : check_below (fun k => (zeroFill k 4 =? four_digits k)%string)
                          14 10000 = true) by (vm_compute; reflexivity).
  apply String.eqb_eq.
  apply (check_below_spec _ _ _ H); [vm_compute; discriminate | lia].
Qed.




Lemma digit_val_digit (d : Z) :
  0 <= d <= 9 -> digit_val (digit d) = Some d.
Proof.
  intros Hd.
  assert (H : check_below (fun k => match digit_val (digit k) with
                                    | Some k' => k' =? k
                                    | None => false
                                    end) 4 10 = true) by reflexivity.
  pose proof (check_below_spec _ _ _ H ltac:(vm_compute; discriminate) d
                ltac:(lia)) as Hk.
  cbn beta in Hk. destruct (digit_val (digit d)); [|discriminate].
  apply Z.eqb_eq in Hk. now subst.
Qed.

Lemma take_two_digits (n : Z) (rest : string) :
  0 <= n <= 99 ->
  take_digits 2 0 (two_digits n ++ rest)%string = Some (n, rest).
Proof.
  intros Hn. unfold two_digits. cbn [append take_digits].
  rewrite digit_val_digit
    by (split; [apply Z.div_pos; lia | apply Z.lt_succ_r, Z.div_lt_upper_bound; lia]).
  rewrite digit_val_digit
    by (pose proof (Z.mod_pos_bound n 10 ltac:(lia)); lia).
  f_equal. f_equal. Z.div_mod_to_equations. lia.
Qed.

Lemma take_four_digits (n : Z) (rest : string) :
  0 <= n <= 9999 ->
  take_digits 4 0 (four_digits n ++ rest)%string = Some (n, rest).
Proof.
  intros Hn. unfold four_digits. cbn [append take_digits].
  rewrite digit_val_digit
    by (split; [apply Z.div_pos; lia | apply Z.lt_succ_r, Z.div_lt_upper_bound; lia]).
  rewrite !digit_val_digit
    by (match goal with |- 0 <= ?a mod 10 <= 9 =>
          pose proof (Z.mod_pos_bound a 10 ltac:(lia)); lia end).
  f_equal. f_equal. Z.div_mod_to_equations. lia.
Qed.

End TimestampFacts.

Section TimestampParsing.
Local Open Scope Z_scope.

Lemma parse_offset_string (off : Offset) :
  offset_in_range off = true ->
  parse_offset (offset_string off) = Some (offset_minutes off).
Proof.
  destruct off as [|east hours minutes]; [reflexivity|].
  cbn [offset_in_range offset_string offset_minutes]. intros H.
  repeat (apply andb_prop in H; destruct H as [H ?]).
  rewrite <- (append_nil_r (two_digits minutes)).
  destruct east; cbn [append parse_offset Ascii.eqb Bool.eqb andb orb];
    rewrite take_two_digits by lia;
    cbn [append expect Ascii.eqb Bool.eqb andb];
    rewrite take_two_digits by lia; reflexivity.
Qed.

Lemma well_formed_ranges (y m d hh mm ss : Z) (off : Offset) :
  well_formed y m d hh mm ss off = true ->
  0 <= y <= 9999 /\ 1 <= m <= 12 /\ 1 <= d <= days_in_month y m
  /\ 0 <= hh <= 23 /\ 0 <= mm <= 59 /\ 0 <= ss <= 59
  /\ offset_in_range off = true.
Proof.
  unfold well_formed. intros H.
  repeat (apply andb_prop in H; destruct H as [H ?]).
  repeat split; try lia; assumption.
Qed.

Lemma days_in_month_le_31 (y m : Z) : days_in_month y m <= 31.
Proof.
  unfold days_in_month.
  destruct (m =? 2); [destruct (is_leap y); lia|].
  destruct ((m =? 4) || (m =? 6) || (m =? 9) || (m =? 11)); lia.
Qed.

Lemma parse_fields_iso_string (y m d hh mm ss : Z) (off : Offset) :
  well_formed y m d hh mm ss off = true ->
  parse_fields (iso_string y m d hh mm ss off)
  = Some (y, m, d, hh, mm, ss, offset_minutes off).
Proof.
  intros H. destruct (well_formed_ranges _ _ _ _ _ _ _ H)
    as [Hy [Hm [Hd [Hhh [Hmm [Hss Hoff]]]]]].
  pose proof (days_in_month_le_31 y m) as Hd31.
  unfold parse_fields, iso_string.
  rewrite take_four_digits by lia.
  cbn [opt_bind append expect Ascii.eqb Bool.eqb andb].
  rewrite take_two_digits by lia.
  cbn [opt_bind append expect Ascii.eqb Bool.eqb andb].
  rewrite take_two_digits by lia.
  cbn [opt_bind append expect Ascii.eqb Bool.eqb andb].
  rewrite take_two_digits by lia.
  cbn [opt_bind append expect Ascii.eqb Bool.eqb andb].
  rewrite take_two_digits by lia.
  cbn [opt_bind append expect Ascii.eqb Bool.eqb andb].
  rewrite take_two_digits by lia.
  cbn [opt_bind]. rewrite parse_offset_string by assumption.
  reflexivity.
Qed.

Lemma parse_iso_string (y m d hh mm ss : Z) (off : Offset) :
  well_formed y m d hh mm ss off = true ->
  parse_iso (iso_string y m d hh mm ss off)
  = Some (utc_ms y m d hh mm ss - offset_minutes off * 60000).
Proof.
  intros H. unfold parse_iso. rewrite (parse_fields_iso_string _ _ _ _ _ _ _ H).
  destruct (well_formed_ranges _ _ _ _ _ _ _ H)
    as [Hy [Hm [Hd [Hhh [Hmm [Hss Hoff]]]]]].
  unfold fields_in_range.
  repeat match goal with
         | |- context [?a <=? ?b] =>
             let E := fresh in
             destruct (Z.leb_spec a b) as [E|E]; [|lia]
         end.
  reflexivity.
Qed.

Lemma iso_string_truthy (y m d hh mm ss : Z) (off : Offset) :
  truthy (VStr (iso_string y m d hh mm ss off)) = true.
Proof. reflexivity. Qed.

(** A supplied well-formed timestamp is validated to the instant it
    denotes, whatever the fallback. *)
Lemma validateDateStamp_iso (h : Host) (hours : option Z)
    (y m d hh mm ss : Z) (off : Offset) :
  well_formed y m d hh mm ss off = true ->
  validateDateStamp h (VStr (iso_string y m d hh mm ss off)) hours
  = format_ical h (utc_ms y m d hh mm ss - offset_minutes off * 60000).
Proof.
  intros H. unfold validateDateStamp. rewrite iso_string_truthy.
  unfold moment_parse. now rewrite (parse_iso_string _ _ _ _ _ _ _ H).
Qed.



End TimestampParsing.



(** The sample event: its start is supplied with offset +01:00 and read
    back in local time; stamp and end are defaulted. *)
Example sample_raw_event_timestamps :
  iso_string 2020 1 2 9 0 0 (OffsetHM true 1 0) = "2020-01-02T09:00:00+01:00"
  /\ well_formed 2020 1 2 9 0 0 (OffsetHM true 1 0) = true
  /\ validateDateStart sample_host (VStr "2020-01-02T09:00:00+01:00")
     = "20200102T090000"
  /\ validateDateStart utc_host (VStr "2020-01-02T09:00:00+01:00")
     = "20200102T080000"
  /\ validateDateStamp sample_host VUndefined None = "20200101T010000"
  /\ validateDateEnd sample_host VUndefined = "20200101T020000".
Proof. repeat split; reflexivity. Qed.


(** ** C2: the file path *)

(** The revision with the [timeZone] option resolves the path as stated:
    an explicit path is returned as it is; without one, the temp directory
    is joined with the default name when no file name is given, with the
    file name when it ends in [.ics], and with the file name followed by
    [.ics] when it does not. *)
Lemma validateFilePath_spec (h : Host) (fileName filePath : Value) :
  (truthy filePath = true -> validateFilePath h fileName filePath = Ok filePath)
  /\ (truthy filePath = false -> truthy fileName = false ->
      validateFilePath h fileName filePath
      = Ok (VStr (path_join h (TMPDIR h) "calendar-event.ics")))
  /\ (forall name, truthy filePath = false -> fileName = VStr name ->
      name <> "" ->
      ((exists p, name = p ++ ".ics") ->
       validateFilePath h fileName filePath
       = Ok (VStr (path_join h (TMPDIR h) name)))
      /\ (~ (exists p, name = p ++ ".ics") ->
          validateFilePath h fileName filePath
          = Ok (VStr (path_join h (TMPDIR h) (name ++ ".ics"))))).
Proof.
  unfold validateFilePath. split; [|split].
  - now intros ->.
  - now intros -> ->.
  - intros name -> -> Hne. apply String.eqb_neq in Hne.
    cbn [truthy]. rewrite Hne. cbn [negb]. split.
    + intros Hs. apply endsWith_suffix in Hs. now rewrite Hs.
    + intros Hs. destruct (endsWith (VStr name) ".ics") eqn:He.
      * apply endsWith_suffix in He. contradiction.
      * reflexivity.
Qed.

(** With a file name given, the two earlier revisions agree with it. *)
Lemma earlier_validateFilePath_named (h : Host) (name : string) (filePath : Value) :
  name <> "" ->
  Rev1.validateFilePath h (VStr name) filePath
  = validateFilePath h (VStr name) filePath
  /\ Rev2.validateFilePath h (VStr name) filePath
     = validateFilePath h (VStr name) filePath.
Proof.
  intros Hne. apply String.eqb_neq in Hne.
  unfold Rev1.validateFilePath, Rev2.validateFilePath, validateFilePath, js_or.
  cbn [truthy]. rewrite Hne. cbn [negb].
  destruct (truthy filePath); [split; reflexivity|].
  destruct (endsWith (VStr name) ".ics"); split; reflexivity.
Qed.

(** C2, at the input where the code departs from it: no file name and no
    explicit path.  The first revision joins the temp directory with
    [undefined.ics], the second hands [undefined] to [path.join], which
    throws; only the third joins it with the default file name. *)
Theorem validateFilePath_default_name (h : Host) :
  Rev1.validateFilePath h VUndefined VUndefined
  = Ok (VStr (path_join h (TMPDIR h) "undefined.ics"))
  /\ Rev2.validateFilePath h VUndefined VUndefined
     = Throw (TypeError "Path must be a string")
  /\ validateFilePath h VUndefined VUndefined
     = Ok (VStr (path_join h (TMPDIR h) DEFAULT_FILE_NAME))
  /\ "undefined.ics" <> DEFAULT_FILE_NAME.
Proof. repeat split. discriminate. Qed.

Example validateFilePath_samples :
  validateFilePath sample_host (VStr "foo") VUndefined = Ok (VStr "/tmp/foo.ics")
  /\ validateFilePath sample_host (VStr "foo.ics") VUndefined
     = Ok (VStr "/tmp/foo.ics")
  /\ validateFilePath sample_host (VStr "foo") (VStr "/home/me/bar.txt")
     = Ok (VStr "/home/me/bar.txt")
  /\ validateFilePath sample_host VUndefined VUndefined
     = Ok (VStr "/tmp/calendar-event.ics")
  /\ Rev1.validateFilePath sample_host VUndefined VUndefined
     = Ok (VStr "/tmp/undefined.ics").
Proof. repeat split; reflexivity. Qed.

(** ** C8: the pre-validated marker *)

Lemma validateCalendarOptions_marked
    (h : Host) (calendarOptions filePath : Value) :
  truthy (prop calendarOptions "isValid") = true ->
  validateCalendarOptions h calendarOptions filePath = Ok calendarOptions.
Proof.
  intros H. unfold validateCalendarOptions.
  rewrite (truthy_prop_not_absent _ _ H). simpl. now rewrite H.
Qed.

Lemma Rev1_validateCalendarOptions_marked
    (h : Host) (calendarOptions filePath : Value) :
  truthy (prop calendarOptions "isValid") = true ->
  Rev1.validateCalendarOptions h calendarOptions filePath = Ok calendarOptions.
Proof.
  intros H. unfold Rev1.validateCalendarOptions.
  rewrite (truthy_prop_not_absent _ _ H). simpl. now rewrite H.
Qed.

Lemma Rev2_validateCalendarOptions_marked
    (h : Host) (calendarOptions filePath : Value) :
  truthy (prop calendarOptions "isValid") = true ->
  Rev2.validateCalendarOptions h calendarOptions filePath = Ok calendarOptions.
Proof.
  intros H. unfold Rev2.validateCalendarOptions.
  rewrite (truthy_prop_not_absent _ _ H). simpl. now rewrite H.
Qed.

(** C8. A calendar options structure whose [isValid] marker is present and
    true comes back from [validateCalendarOptions] as it is: whatever the
    host and the explicit path, the result is the structure itself, with
    no field resolved, defaulted or re-validated.  All three revisions
    agree on this. *)
Theorem validateCalendarOptions_isValid_identity
    (h : Host) (calendarOptions filePath : Value) :
  truthy (prop calendarOptions "isValid") = true ->
  validateCalendarOptions h calendarOptions filePath = Ok calendarOptions
  /\ Rev1.validateCalendarOptions h calendarOptions filePath
     = Ok calendarOptions
  /\ Rev2.validateCalendarOptions h calendarOptions filePath
     = Ok calendarOptions.
Proof.
  intros H. split; [|split].
  - now apply validateCalendarOptions_marked.
  - now apply Rev1_validateCalendarOptions_marked.
  - now apply Rev2_validateCalendarOptions_marked.
Qed.

Lemma validateCalendarOptions_isValid_identity_witness :
  validateCalendarOptions sample_host sample_canonical_calendar
                          (VStr "/tmp/x.ics")
  = Ok sample_canonical_calendar
  /\ Rev1.validateCalendarOptions sample_host sample_canonical_calendar
                                  (VStr "/tmp/x.ics")
     = Ok sample_canonical_calendar
  /\ Rev2.validateCalendarOptions sample_host sample_canonical_calendar
                                  (VStr "/tmp/x.ics")
     = Ok sample_canonical_calendar.
Proof.
  apply (validateCalendarOptions_isValid_identity sample_host
           sample_canonical_calendar (VStr "/tmp/x.ics")).
  reflexivity.
Defined.

(** ** The document as a list of lines *)

Lemma event_block_nonempty (tz : string) (e : Spec.EventOptions) :
  Spec.event_block tz e <> [].
Proof. unfold Spec.event_block. simpl. discriminate. Qed.

Lemma concat_nonempty {A} (b : list A) (bs : list (list A)) :
  b <> [] -> concat (b :: bs) <> [].
Proof. destruct b; simpl; congruence. Qed.

(** Header, joined event blocks and footer are the lines of the document. *)
Lemma formatCalendar_lines (h : Host) (tz : string)
    (events : list Spec.EventOptions) :
  formatCalendar h
    (join (SYSTEM_LINE_BREAK h)
          (map (fun e => join (SYSTEM_LINE_BREAK h) (Spec.event_block tz e))
               events))
  = join (SYSTEM_LINE_BREAK h)
         (Spec.calendar_lines (map (Spec.event_block tz) events)).
Proof.
  unfold formatCalendar, calendarHeader, calendarFooter, Spec.calendar_lines.
  rewrite join_flatten by discriminate.
  destruct events as [|e events]; [reflexivity|].
  rewrite <- (map_map (Spec.event_block tz) (join (SYSTEM_LINE_BREAK h))).
  rewrite join_concat.
  - cbn [map]. apply (join_flatten_mid _ ["BEGIN:VCALENDAR"; "VERSION:2.0"]).
    apply concat_nonempty, event_block_nonempty.
  - apply Forall_forall. intros b Hb. apply in_map_iff in Hb.
    destruct Hb as [e' [<- _]]. apply event_block_nonempty.
  - discriminate.
Qed.

Lemma mapM_formatEvent (h : Host) (options : Value) (evs : list Value) :
  forallb canonical_event evs = true -> absent options = false ->
  mapM (fun event => formatEvent h event options) evs
  = Ok (map (fun e => join (SYSTEM_LINE_BREAK h)
                           (Spec.event_block (toString (prop options "timeZone")) e))
            (map decode_event evs)).
Proof.
  intros H Ho. rewrite map_map. apply mapM_ok. intros e He.
  apply formatEvent_canonical; [|assumption].
  rewrite forallb_forall in H. now apply H.
Qed.

Lemma Rev1_mapM_formatEvent (h : Host) (evs : list Value) :
  forallb canonical_event evs = true ->
  mapM (Rev1.formatEvent h) evs
  = Ok (map (fun e => join (SYSTEM_LINE_BREAK h)
                           (Spec.event_block (guessedTimezone h) e))
            (map decode_event evs)).
Proof.
  intros H. rewrite map_map. apply mapM_ok. intros e He.
  apply Rev1_formatEvent_canonical.
  rewrite forallb_forall in H. now apply H.
Qed.

(** ** Validation of raw calendar options *)

Lemma mapM_validateEventOptions (h : Host) (l : list Value) :
  forallb raw_event l = true ->
  exists evs, mapM (validateEventOptions h) l = Ok evs
              /\ forallb canonical_event evs = true
              /\ List.length evs = List.length l.
Proof.
  induction l as [|e l IH]; intros H; simpl in *.
  - exists []. auto.
  - apply andb_prop in H. destruct H as [He Hl].
    destruct (validated_event_canonical h e He) as [v [Hv [Hc _]]].
    destruct (IH Hl) as [evs [Hevs [Hcs Hlen]]].
    exists (v :: evs). rewrite Hv, Hevs. simpl. rewrite Hc, Hcs, Hlen. auto.
Qed.

Lemma validateEventOptions_empty (h : Host) :
  validateEventOptions h (VObj []) = Ok (default_event_object h).
Proof.
  unfold validateEventOptions, default_event_object. cbn [get prop lookup bind].
  unfold validateDateStart, validateDateEnd, validateDateStamp.
  cbn [truthy moment_now_add moment_format].
  now rewrite Z.mul_0_l, Z.add_0_r, Z.mul_1_l.
Qed.

Lemma default_event_object_decode (h : Host) :
  decode_event (default_event_object h) = default_event h.
Proof. reflexivity. Qed.

Lemma default_event_object_canonical (h : Host) :
  canonical_event (default_event_object h) = true.
Proof. reflexivity. Qed.

Lemma validateFilePath_typed (h : Host) (fileName filePath : Value) :
  opt_string fileName = true -> opt_string filePath = true ->
  exists p, validateFilePath h fileName filePath = Ok (VStr p).
Proof.
  intros Hn Hp. unfold validateFilePath.
  destruct filePath as [| | |[|c s]| |]; try discriminate; cbn [truthy String.eqb negb];
    try (now eexists);
    (destruct fileName as [| | |[|c' s']| |]; try discriminate;
     cbn [truthy String.eqb negb]; try (now eexists);
     destruct (endsWith _ _); now eexists).
Qed.

Lemma validateCalendarOptions_raw (h : Host) (c filePath : Value) :
  raw_calendar c = true -> truthy (prop c "isValid") = false ->
  opt_string filePath = true ->
  exists p evs,
    validateCalendarOptions h c filePath
    = Ok (VObj [ ("filePath", VStr p); ("events", VArr evs);
                 ("timeZone", VStr (resolved_timeZone h c)) ])
    /\ validateFilePath h (prop c "filename") filePath = Ok (VStr p)
    /\ forallb canonical_event evs = true
    /\ formatted_events h c = Ok evs.
Proof.
  unfold raw_calendar. intros H Hv Hp. split_andb.
  destruct c as [| | | | |ps]; try discriminate.
  unfold validateCalendarOptions, formatted_events.
  cbn [get prop bind] in *. rewrite Hv.
  match goal with
  | Hn : opt_string (lookup "filename" ps) = true |- _ =>
      destruct (validateFilePath_typed h _ _ Hn Hp) as [p Hpath]
  end.
  rewrite Hpath. cbn [bind].
  assert (Htz : js_or (lookup "timeZone" ps) (VStr (guessedTimezone h))
                = VStr (resolved_timeZone h (VObj ps))).
  { unfold js_or, resolved_timeZone. cbn [prop].
    destruct (lookup "timeZone" ps) as [| | |[|ch s]| |]; try discriminate;
      reflexivity. }
  rewrite Htz.
  destruct (lookup "events" ps) as [| | | |l|] eqn:Hev; try discriminate.
  - cbn [truthy]. rewrite validateEventOptions_empty. cbn [bind].
    exists p, [default_event_object h]. repeat split; auto.
  - cbn [truthy]. rewrite validateEventOptions_empty. cbn [bind].
    exists p, [default_event_object h]. repeat split; auto.
  - cbn [truthy collection].
    match goal with
    | Hl : opt_list raw_event (VArr l) = true |- _ =>
        destruct (mapM_validateEventOptions h l Hl) as [evs [Hevs [Hcan _]]]
    end.
    rewrite Hevs. cbn [bind]. exists p, evs. repeat split; auto.
Qed.

(** [getCalendar] on raw options that do not carry the marker. *)
Lemma getCalendar_raw (h : Host) (c : Value) :
  raw_calendar c = true -> truthy (prop c "isValid") = false ->
  exists evs,
    getCalendar h c
    = Ok (join (SYSTEM_LINE_BREAK h)
               (Spec.calendar_lines
                  (map (Spec.event_block (resolved_timeZone h c))
                       (map decode_event evs))))
    /\ forallb canonical_event evs = true
    /\ formatted_events h c = Ok evs.
Proof.
  intros H Hv.
  destruct (validateCalendarOptions_raw h c VUndefined H Hv eq_refl)
    as [p [evs [Hval [_ [Hcan Hevs]]]]].
  exists evs. repeat split; auto.
  unfold getCalendar. rewrite Hval. cbn [bind get prop lookup String.eqb
    Ascii.eqb Bool.eqb collection].
  rewrite mapM_formatEvent by (auto; reflexivity).
  cbn [bind prop lookup String.eqb Ascii.eqb Bool.eqb toString].
  now rewrite formatCalendar_lines.
Qed.

(** [getCalendar] on a structure that carries the marker: the structure
    is formatted as it is. *)
Lemma getCalendar_prevalidated (h : Host) (c : Value) (evs : list Value) :
  truthy (prop c "isValid") = true ->
  prop c "events" = VArr evs -> forallb canonical_event evs = true ->
  getCalendar h c
  = Ok (join (SYSTEM_LINE_BREAK h)
             (Spec.calendar_lines
                (map (Spec.event_block (toString (prop c "timeZone")))
                     (map decode_event evs)))).
Proof.
  intros Hv Hev Hcan. unfold getCalendar.
  rewrite (validateCalendarOptions_marked h c VUndefined Hv).
  assert (Hc : absent c = false) by (destruct c; try discriminate; reflexivity).
  assert (Hget : get c "events" = Ok (VArr evs))
    by (destruct c; try discriminate; cbn [get]; now rewrite Hev).
  cbn [bind]. rewrite Hget. cbn [bind collection].
  rewrite mapM_formatEvent by assumption. cbn [bind].
  now rewrite formatCalendar_lines.
Qed.

(** ** C1: the time zone of the time properties *)



Lemma canonical_calendar_fields (c : Value) :
  canonical_calendar c = true ->
  truthy (prop c "isValid") = true
  /\ exists tz evs, prop c "timeZone" = VStr tz /\ prop c "events" = VArr evs
                    /\ forallb canonical_event evs = true.
Proof.
  unfold canonical_calendar. intros H. split_andb. split.
  - destruct (prop c "isValid") as [| |[|]| | |]; try discriminate; reflexivity.
  - destruct (prop c "timeZone"); try discriminate.
    destruct (prop c "events"); try discriminate. eauto.
Qed.

(** In the earlier revisions the option is not read at all: the time zone
    is the host-detected one whatever the options say. *)
Lemma Rev1_validateFilePath_typed (h : Host) (fileName filePath : Value) :
  opt_string fileName = true -> opt_string filePath = true ->
  exists p, Rev1.validateFilePath h fileName filePath = Ok (VStr p).
Proof.
  intros Hn Hp. unfold Rev1.validateFilePath.
  destruct filePath as [| | |[|c s]| |]; try discriminate;
    cbn [truthy String.eqb negb]; try (now eexists);
    (destruct fileName as [| | |[|c' s']| |]; try discriminate;
     try (now eexists); destruct (endsWith _ _); now eexists).
Qed.

Lemma Rev1_getCalendar_raw (h : Host) (c : Value) :
  raw_calendar c = true -> truthy (prop c "isValid") = false ->
  exists evs,
    Rev1.getCalendar h c
    = Ok (join (SYSTEM_LINE_BREAK h)
               (Spec.calendar_lines
                  (map (Spec.event_block (guessedTimezone h))
                       (map decode_event evs))))
    /\ forallb canonical_event evs = true
    /\ formatted_events h c = Ok evs.
Proof.
  unfold raw_calendar. intros H Hv. split_andb.
  destruct c as [| | | | |ps]; try discriminate.
  unfold Rev1.getCalendar, Rev1.validateCalendarOptions, formatted_events.
  cbn [get prop bind] in *. rewrite Hv.
  match goal with
  | Hn : opt_string (lookup "filename" ps) = true |- _ =>
      destruct (Rev1_validateFilePath_typed h _ VUndefined Hn eq_refl)
        as [p Hpath]
  end.
  rewrite Hpath. cbn [bind].
  assert (Hfinish : forall evs, forallb canonical_event evs = true ->
    (validatedCalendarOptions <-
       Ok (VObj [("filePath", VStr p); ("events", VArr evs)]) ;;
     events <- get validatedCalendarOptions "events" ;;
     formattedEvents <- mapM (Rev1.formatEvent h) (collection events) ;;
     Ok (formatCalendar h (join (SYSTEM_LINE_BREAK h) formattedEvents)))
    = Ok (join (SYSTEM_LINE_BREAK h)
               (Spec.calendar_lines
                  (map (Spec.event_block (guessedTimezone h))
                       (map decode_event evs))))).
  { intros evs Hcan.
    cbn [bind get prop lookup String.eqb Ascii.eqb Bool.eqb collection].
    rewrite Rev1_mapM_formatEvent by assumption. cbn [bind].
    now rewrite formatCalendar_lines. }
  destruct (lookup "events" ps) as [| | | |l|] eqn:Hev; try discriminate.
  - cbn [truthy]. rewrite validateEventOptions_empty.
    exists [default_event_object h].
    split; [apply Hfinish; reflexivity|]. repeat split; auto.
  - cbn [truthy]. rewrite validateEventOptions_empty.
    exists [default_event_object h].
    split; [apply Hfinish; reflexivity|]. repeat split; auto.
  - cbn [truthy collection].
    match goal with
    | Hl : opt_list raw_event (VArr l) = true |- _ =>
        destruct (mapM_validateEventOptions h l Hl) as [evs [Hevs [Hcan _]]]
    end.
    rewrite Hevs. exists evs.
    split; [apply (Hfinish evs Hcan)|]. repeat split; auto.
Qed.

Lemma Rev1_getCalendar_prevalidated (h : Host) (c : Value) (evs : list Value) :
  truthy (prop c "isValid") = true ->
  prop c "events" = VArr evs -> forallb canonical_event evs = true ->
  Rev1.getCalendar h c
  = Ok (join (SYSTEM_LINE_BREAK h)
             (Spec.calendar_lines
                (map (Spec.event_block (guessedTimezone h))
                     (map decode_event evs)))).
Proof.
  intros Hv Hev Hcan. unfold Rev1.getCalendar.
  rewrite (Rev1_validateCalendarOptions_marked h c VUndefined Hv).
  assert (Hget : get c "events" = Ok (VArr evs))
    by (destruct c; try discriminate; cbn [get]; now rewrite Hev).
  cbn [bind]. rewrite Hget. cbn [bind collection].
  rewrite Rev1_mapM_formatEvent by assumption. cbn [bind].
  now rewrite formatCalendar_lines.
Qed.



(** The sample document: the supplied time zone in the three time
    properties. *)
Example getCalendar_sample_timeZone :
  getCalendar sample_host sample_raw_calendar
  = Ok (join LF [ "BEGIN:VCALENDAR"; "VERSION:2.0"; ""; "BEGIN:VEVENT";
                  "DTSTAMP;TZID=UTC:20200101T010000";
                  "ORGANIZER;CN=O:MAILTO:o@x.com";
                  "ATTENDEE;CN=" ++ DQUOTE ++ "A" ++ DQUOTE
                  ++ ";RSVP=false:MAILTO:a@x.com";
                  "DTSTART;TZID=UTC:20200102T090000";
                  "DTEND;TZID=UTC:20200101T020000";
                  "DESCRIPTION:"; "SUMMARY:Stand-up"; "END:VEVENT";
                  "END:VCALENDAR" ]).
Proof. reflexivity. Qed.


(** ** C5: an empty list of events, and none *)

(** C5, amended. For raw calendar options that do not carry a true
    [isValid] marker: with an explicitly empty [events] list the output of
    [getCalendar] is header, an empty line and footer, with no event block
    (no BEGIN:VEVENT line, and no occurrence of that text under either
    platform separator); with [events] absent or null it holds exactly one
    event block, the one of the default event.  The first revision does
    the same with the host-detected time zone. *)
Theorem getCalendar_event_blocks (h : Host) (c : Value) :
  raw_calendar c = true ->
  truthy (prop c "isValid") = false ->
  (prop c "events" = VArr [] ->
     getCalendar h c
     = Ok (join (SYSTEM_LINE_BREAK h) (Spec.calendar_lines []))
     /\ Rev1.getCalendar h c
        = Ok (join (SYSTEM_LINE_BREAK h) (Spec.calendar_lines []))
     /\ count_line "BEGIN:VEVENT" (Spec.calendar_lines []) = 0%nat
     /\ (SYSTEM_LINE_BREAK h = LF \/ SYSTEM_LINE_BREAK h = CRLF ->
         occurrences "BEGIN:VEVENT"
           (join (SYSTEM_LINE_BREAK h) (Spec.calendar_lines [])) = 0%nat))
  /\ (absent (prop c "events") = true ->
        getCalendar h c
        = Ok (join (SYSTEM_LINE_BREAK h)
                   (Spec.calendar_lines
                      [Spec.event_block (resolved_timeZone h c)
                                        (default_event h)]))
        /\ Rev1.getCalendar h c
           = Ok (join (SYSTEM_LINE_BREAK h)
                      (Spec.calendar_lines
                         [Spec.event_block (guessedTimezone h)
                                           (default_event h)]))
        /\ forall tz,
             count_line "BEGIN:VEVENT"
               (Spec.calendar_lines [Spec.event_block tz (default_event h)])
             = 1%nat).
Proof.
  intros Hraw Hv.
  destruct (getCalendar_raw h c Hraw Hv) as [evs [Hout [_ Hevs]]].
  destruct (Rev1_getCalendar_raw h c Hraw Hv) as [evs1 [Hout1 [_ Hevs1]]].
  rewrite Hevs in Hevs1. injection Hevs1 as <-.
  unfold formatted_events in Hevs. rewrite Hv in Hevs.
  split.
  - intros Hev. rewrite Hev in Hevs. simpl in Hevs. injection Hevs as <-.
    split; [exact Hout|]. split; [exact Hout1|]. split; [reflexivity|].
    intros [-> | ->]; reflexivity.
  - intros Hab.
    assert (Ht : truthy (prop c "events") = false)
      by (destruct (prop c "events"); try discriminate; reflexivity).
    rewrite Ht in Hevs. injection Hevs as <-.
    split; [exact Hout|]. split; [exact Hout1|].
    intros tz. reflexivity.
Qed.

Lemma getCalendar_event_blocks_witness :
  (prop (VObj [("events", VArr [])]) "events" = VArr [] ->
     getCalendar sample_host (VObj [("events", VArr [])])
     = Ok (join (SYSTEM_LINE_BREAK sample_host) (Spec.calendar_lines []))
     /\ Rev1.getCalendar sample_host (VObj [("events", VArr [])])
        = Ok (join (SYSTEM_LINE_BREAK sample_host) (Spec.calendar_lines []))
     /\ count_line "BEGIN:VEVENT" (Spec.calendar_lines []) = 0%nat
     /\ (SYSTEM_LINE_BREAK sample_host = LF
         \/ SYSTEM_LINE_BREAK sample_host = CRLF ->
         occurrences "BEGIN:VEVENT"
           (join (SYSTEM_LINE_BREAK sample_host) (Spec.calendar_lines []))
         = 0%nat))
  /\ (absent (prop (VObj [("events", VArr [])]) "events") = true ->
        getCalendar sample_host (VObj [("events", VArr [])])
        = Ok (join (SYSTEM_LINE_BREAK sample_host)
                   (Spec.calendar_lines
                      [Spec.event_block
                         (resolved_timeZone sample_host
                                            (VObj [("events", VArr [])]))
                         (default_event sample_host)]))
        /\ Rev1.getCalendar sample_host (VObj [("events", VArr [])])
           = Ok (join (SYSTEM_LINE_BREAK sample_host)
                      (Spec.calendar_lines
                         [Spec.event_block (guessedTimezone sample_host)
                                           (default_event sample_host)]))
        /\ forall tz,
             count_line "BEGIN:VEVENT"
               (Spec.calendar_lines
                  [Spec.event_block tz (default_event sample_host)])
             = 1%nat).
Proof.
  apply (getCalendar_event_blocks sample_host (VObj [("events", VArr [])]));
    reflexivity.
Defined.

(** The two documents on the sample host. *)
Example getCalendar_no_events :
  getCalendar sample_host (VObj [("events", VArr [])])
  = Ok (join LF [ "BEGIN:VCALENDAR"; "VERSION:2.0"; ""; "END:VCALENDAR" ]).
Proof. reflexivity. Qed.

Example getCalendar_default_event :
  getCalendar sample_host (VObj [])
  = Ok (join LF [ "BEGIN:VCALENDAR"; "VERSION:2.0"; ""; "BEGIN:VEVENT";
                  "DTSTAMP;TZID=Europe/Paris:20200101T010000";
                  "DTSTART;TZID=Europe/Paris:20200101T010000";
                  "DTEND;TZID=Europe/Paris:20200101T020000";
                  "DESCRIPTION:"; "SUMMARY:New Event"; "END:VEVENT";
                  "END:VCALENDAR" ]).
Proof. reflexivity. Qed.

(** C5 as stated fails on options that carry the marker and no [events]:
    the field is absent and the output holds no event block. *)
Lemma getCalendar_event_blocks_counterexample :
  raw_calendar marked_without_events = true
  /\ absent (prop marked_without_events "events") = true
  /\ getCalendar sample_host marked_without_events
     = Ok (join LF [ "BEGIN:VCALENDAR"; "VERSION:2.0"; ""; "END:VCALENDAR" ])
  /\ occurrences "BEGIN:VEVENT"
       (join LF [ "BEGIN:VCALENDAR"; "VERSION:2.0"; ""; "END:VCALENDAR" ])
     = 0%nat.
Proof. repeat split; reflexivity. Qed.

(** The second revision throws on raw options without a file name, before
    it looks at the events: [validateFilePath] hands [undefined] to
    [path.join]. *)
Example Rev2_getCalendar_throws :
  Rev2.getCalendar sample_host (VObj [("events", VArr [])])
  = Throw (TypeError "Path must be a string")
  /\ Rev2.getCalendar sample_host (VObj [])
     = Throw (TypeError "Path must be a string").
Proof. split; reflexivity. Qed.

(** ** C9: determinism *)

(** C9. On canonical, pre-validated calendar options [getCalendar] raises
    no error, and its result is fixed by the options and the platform line
    separator alone: two calls on the same options return the same text
    under any two hosts with the same separator, whatever their clocks
    read.  In the first revision the text also depends on the
    host-detected time zone and on nothing else. *)
Theorem getCalendar_deterministic (h1 h2 : Host) (c : Value) :
  canonical_calendar c = true ->
  SYSTEM_LINE_BREAK h1 = SYSTEM_LINE_BREAK h2 ->
  (exists text, getCalendar h1 c = Ok text /\ getCalendar h2 c = Ok text)
  /\ (guessedTimezone h1 = guessedTimezone h2 ->
      exists text,
        Rev1.getCalendar h1 c = Ok text /\ Rev1.getCalendar h2 c = Ok text).
Proof.
  intros Hcan Hsep.
  destruct (canonical_calendar_fields c Hcan) as [Hv [tz [evs [Htz [Hev Hcs]]]]].
  split.
  - eexists. split.
    + exact (getCalendar_prevalidated h1 c evs Hv Hev Hcs).
    + rewrite (getCalendar_prevalidated h2 c evs Hv Hev Hcs). now rewrite Hsep.
  - intros Hzone. eexists. split.
    + exact (Rev1_getCalendar_prevalidated h1 c evs Hv Hev Hcs).
    + rewrite (Rev1_getCalendar_prevalidated h2 c evs Hv Hev Hcs).
      now rewrite Hsep, Hzone.
Qed.

Lemma getCalendar_deterministic_witness :
  (exists text, getCalendar sample_host sample_canonical_calendar = Ok text
                /\ getCalendar later_host sample_canonical_calendar = Ok text)
  /\ (guessedTimezone sample_host = guessedTimezone later_host ->
      exists text,
        Rev1.getCalendar sample_host sample_canonical_calendar = Ok text
        /\ Rev1.getCalendar later_host sample_canonical_calendar = Ok text).
Proof.
  apply (getCalendar_deterministic sample_host later_host
           sample_canonical_calendar); reflexivity.
Defined.

(** ** C3: the completion callback *)

Lemma formatEvent_validated (h : Host) (e options : Value) :
  absent e = false -> absent options = false ->
  exists v, validateEventOptions h e = Ok v
            /\ is_object v = true
            /\ exists text, formatEvent h v options = Ok text.
Proof.
  intros Ha Ho. rewrite (validateEventOptions_returns h e Ha).
  eexists. split; [reflexivity|]. split; [reflexivity|].
  assert (Hget : get options "timeZone" = Ok (prop options "timeZone"))
    by (destruct options; try discriminate; reflexivity).
  unfold formatEvent, eventParts. rewrite Hget.
  cbn [bind get prop lookup String.eqb Ascii.eqb Bool.eqb].
  assert (Horg : exists part,
    (if truthy (validateOrganizer (prop e "organizer"))
     then line <- fmt_organizer (validateOrganizer (prop e "organizer")) ;;
          Ok [line]
     else Ok []) = Ok part).
  { destruct (truthy (validateOrganizer (prop e "organizer"))) eqn:Ht;
      [|now eexists].
    unfold fmt_organizer. rewrite !(get_truthy _ _ Ht). cbn [bind].
    now eexists. }
  destruct Horg as [part ->].
  unfold validateAttendees. cbn [truthy collection].
  destruct (mapM_fmt_attendee_objects
              (map validatedAttendee
                   (filter (fun person => truthy (isValidPerson person))
                           (collection (prop e "attendees")))))
    as [lines ->].
  { apply forallb_forall. intros a Hin. apply in_map_iff in Hin.
    destruct Hin as [p [<- _]]. reflexivity. }
  cbn [bind]. now eexists.
Qed.

Lemma mapM_validate_objects (h : Host) (l : list Value) :
  forallb is_object l = true ->
  exists evs, mapM (validateEventOptions h) l = Ok evs
              /\ forallb is_object evs = true.
Proof.
  induction l as [|e l IH]; intros H; simpl in *.
  - now exists [].
  - apply andb_prop in H. destruct H as [He Hl].
    assert (Ha : absent e = false) by (destruct e; try discriminate; reflexivity).
    rewrite (validateEventOptions_returns h e Ha). cbn [bind].
    destruct (IH Hl) as [evs [-> Hobj]]. cbn [bind].
    eexists. split; [reflexivity|]. simpl. exact Hobj.
Qed.

(** [getCalendar] validates once more what [createCalendar] has validated
    already, and returns. *)
Lemma getCalendar_of_validated (h : Host) (p tz : Value) (evs : list Value) :
  forallb is_object evs = true ->
  exists data,
    getCalendar h (VObj [ ("filePath", p); ("events", VArr evs);
                          ("timeZone", tz) ]) = Ok data.
Proof.
  intros Hobj. unfold getCalendar, validateCalendarOptions.
  cbn [get prop lookup String.eqb Ascii.eqb Bool.eqb bind truthy collection].
  unfold validateFilePath. cbn [truthy negb bind].
  set (options := fun evs' : list Value =>
         VObj [ ("filePath", VStr (path_join h (TMPDIR h) DEFAULT_FILE_NAME));
                ("events", VArr evs');
                ("timeZone", js_or tz (VStr (guessedTimezone h))) ]).
  destruct (mapM_validate_objects h evs Hobj) as [evs' [Hevs' Hobj']].
  rewrite Hevs'.
  cbn [get prop lookup String.eqb Ascii.eqb Bool.eqb bind truthy collection].
  assert (Hfmt : forall l, forallb is_object l = true ->
            forall o, absent o = false ->
            (forall e, In e l -> exists text, formatEvent h e o = Ok text) ->
            exists texts, mapM (fun event => formatEvent h event o) l = Ok texts).
  { induction l as [|e l IH]; intros Hl o Ho Hall; simpl.
    - now eexists.
    - simpl in Hl. apply andb_prop in Hl. destruct Hl as [_ Hl].
      destruct (Hall e (or_introl eq_refl)) as [text ->]. cbn [bind].
      destruct (IH Hl o Ho (fun e' He' => Hall e' (or_intror He')))
        as [texts ->].
      cbn [bind]. now eexists. }
  destruct (Hfmt evs' Hobj' (options evs') eq_refl) as [texts Htexts].
  - intros e He.
    assert (Hsrc : exists e0, validateEventOptions h e0 = Ok e /\ absent e0 = false).
    { clear - Hevs' He. revert evs' Hevs' He.
      induction evs as [|x evs IH]; intros evs' Hevs' He; simpl in Hevs'.
      - injection Hevs' as <-. contradiction.
      - destruct (validateEventOptions h x) as [v|] eqn:Hx; [|discriminate].
        cbn [bind] in Hevs'.
        destruct (mapM (validateEventOptions h) evs) as [vs|] eqn:Hvs;
          [|discriminate].
        cbn [bind] in Hevs'. injection Hevs' as <-.
        destruct He as [<-|He].
        + exists x. split; [assumption|].
          destruct x; try discriminate; reflexivity.
        + now apply (IH vs). }
    destruct Hsrc as [e0 [He0 Ha0]].
    destruct (formatEvent_validated h e0 (options evs') Ha0 eq_refl)
      as [v [Hv [_ Htext]]].
    rewrite He0 in Hv. injection Hv as <-. exact Htext.
  - unfold options in Htexts. rewrite Htexts. cbn [bind]. now eexists.
Qed.

(** On raw options without the marker, [createCalendar] returns after one
    call of the completion callback: with the error alone when the write
    fails, and with [null] and [undefined] when it goes through. *)
Lemma createCalendar_callback (h : Host) (c filePath : Value) :
  raw_calendar c = true -> truthy (prop c "isValid") = false ->
  opt_string filePath = true ->
  exists path data,
    validateFilePath h (prop c "filename") filePath = Ok (VStr path)
    /\ createCalendar h c filePath
       = Ok [ match writeFile_error h path data with
              | Some code => [io_error code]
              | None => [VNull; VUndefined]
              end ].
Proof.
  intros Hraw Hv Hp.
  destruct (validateCalendarOptions_raw h c filePath Hraw Hv Hp)
    as [path [evs [Hval [Hpath [Hcan _]]]]].
  assert (Hobj : forallb is_object evs = true).
  { apply forallb_forall. intros e He. rewrite forallb_forall in Hcan.
    specialize (Hcan e He). unfold canonical_event in Hcan. split_andb.
    assumption. }
  destruct (getCalendar_of_validated h (VStr path)
              (VStr (resolved_timeZone h c)) evs Hobj) as [data Hdata].
  exists path, data. split; [assumption|].
  unfold createCalendar. rewrite Hval. cbn [bind]. rewrite Hdata.
  cbn [bind get prop lookup String.eqb Ascii.eqb Bool.eqb].
  unfold toFile, fs_writeFile.
  destruct (writeFile_error h path data); reflexivity.
Qed.

(** C3, at an input where the code departs from it: a write that goes
    through.  The callback is called once, with [null] and with
    [undefined] where the destination path is expected, because
    [fs.writeFile] passes its callback nothing but the error.  A write
    that fails gives one call with the error. *)
Theorem createCalendar_success_has_no_path :
  createCalendar sample_host (VObj []) (VStr "/tmp/out.ics")
  = Ok [[VNull; VUndefined]]
  /\ Rev1.createCalendar sample_host (VObj []) (VStr "/tmp/out.ics")
     = Ok [[VNull; VUndefined]]
  /\ createCalendar sample_host (VObj []) (VStr "/tmp/out.ics")
     <> Ok [[VNull; VStr "/tmp/out.ics"]]
  /\ createCalendar readonly_host (VObj []) (VStr "/tmp/out.ics")
     = Ok [[io_error "EACCES"]].
Proof. repeat split; try reflexivity. discriminate. Qed.

(** In the second revision the call throws before anything is written:
    [getCalendar] validates the validated options again, and
    [validateFilePath] hands [undefined] to [path.join]. *)
Example Rev2_createCalendar_throws :
  Rev2.createCalendar sample_host (VObj []) (VStr "/tmp/out.ics")
  = Throw (TypeError "Path must be a string").
Proof. reflexivity. Qed.

(** * Further properties *)

(** ** Validation applied twice *)

Lemma isValidPerson_truthy (p : Value) :
  truthy (isValidPerson p) = true ->
  truthy p = true /\ truthy (prop p "email") = true
  /\ truthy (prop p "name") = true.
Proof.
  unfold isValidPerson. intros H.
  destruct (truthy p) eqn:Hp; [|congruence].
  destruct (truthy (prop p "email")) eqn:He; [|congruence]. auto.
Qed.

Lemma js_or_twice (a b : Value) : js_or (js_or a b) b = js_or a b.
Proof.
  unfold js_or. destruct (truthy a) eqn:Ha; [now rewrite Ha|].
  now destruct (truthy b).
Qed.

Lemma validatedAttendee_twice (p : Value) :
  validatedAttendee (validatedAttendee p) = validatedAttendee p.
Proof.
  unfold validatedAttendee at 1.
  cbn [validatedAttendee prop lookup String.eqb Ascii.eqb Bool.eqb].
  now rewrite js_or_twice.
Qed.

Lemma validatedAttendee_valid (p : Value) :
  truthy (isValidPerson p) = true ->
  truthy (isValidPerson (validatedAttendee p)) = true.
Proof.
  intros H. destruct (isValidPerson_truthy p H) as [_ [He Hn]].
  unfold isValidPerson, validatedAttendee.
  cbn [truthy prop lookup String.eqb Ascii.eqb Bool.eqb].
  now rewrite He, Hn.
Qed.

Lemma filter_all {A} (f : A -> bool) (l : list A) :
  (forall x, In x l -> f x = true) -> filter f l = l.
Proof.
  induction l as [|x l IH]; intros H; simpl; [reflexivity|].
  rewrite (H x) by now left.
  now rewrite IH by (intros; apply H; now right).
Qed.

(** X1. Validating persons twice changes nothing, whatever the values:
    [validateOrganizer] returns its argument or [false] and returns the
    same on its own result, and [validateAttendees] returns on its own
    result that very list. *)
Theorem person_validation_idempotent (organizer attendees : Value) :
  (validateOrganizer organizer = organizer
   \/ validateOrganizer organizer = VBool false)
  /\ validateOrganizer (validateOrganizer organizer)
     = validateOrganizer organizer
  /\ validateAttendees (validateAttendees attendees)
     = validateAttendees attendees.
Proof.
  split; [|split].
  - unfold validateOrganizer. destruct (truthy (isValidPerson organizer)); auto.
  - unfold validateOrganizer.
    destruct (truthy (isValidPerson organizer)) eqn:Hv.
    + now rewrite Hv.
    + reflexivity.
  - unfold validateAttendees.
    set (xs := filter (fun person => truthy (isValidPerson person))
                      (collection attendees)).
    cbn [collection]. f_equal.
    rewrite filter_all.
    + rewrite map_map. apply map_ext. intros p. apply validatedAttendee_twice.
    + intros a Ha. apply in_map_iff in Ha. destruct Ha as [p [<- Hp]].
      apply validatedAttendee_valid. apply filter_In in Hp. tauto.
Qed.

(** What a second validation makes of a canonical event. *)
Lemma decode_validatedAttendee (p : Value) :
  canonical_attendee p = true ->
  decode_person (validatedAttendee p) = decode_person p.
Proof.
  unfold canonical_attendee, decode_person, validatedAttendee. intros H.
  split_andb. cbn [prop lookup String.eqb Ascii.eqb Bool.eqb].
  destruct (prop p "rsvp") as [| |[|]| | |]; try discriminate; reflexivity.
Qed.

Lemma canonical_attendee_valid (p : Value) :
  canonical_attendee p = true -> truthy (isValidPerson p) = true.
Proof.
  unfold canonical_attendee, canonical_person, isValidPerson. intros H.
  split_andb. destruct p; try discriminate. cbn [truthy prop] in *.
  destruct (lookup "email" props) as [| | |[|c s]| |]; try discriminate.
  destruct (lookup "name" props) as [| | |[|c' s']| |]; try discriminate.
  reflexivity.
Qed.

Lemma canonical_attendee_copy (p : Value) :
  canonical_attendee p = true ->
  canonical_attendee (validatedAttendee p) = true.
Proof.
  unfold canonical_attendee, canonical_person, validatedAttendee. intros H.
  split_andb.
  cbn [is_object prop lookup String.eqb Ascii.eqb Bool.eqb andb].
  match goal with
  | H1 : nonempty_string (prop p "name") = true,
    H2 : nonempty_string (prop p "email") = true |- _ => rewrite H1, H2
  end.
  destruct (prop p "rsvp") as [| |[|]| | |]; try discriminate; reflexivity.
Qed.

Lemma revalidated_attendees (l : list Value) :
  forallb canonical_attendee l = true ->
  exists l', validateAttendees (VArr l) = VArr l'
             /\ forallb canonical_attendee l' = true
             /\ map decode_person l' = map decode_person l.
Proof.
  intros H. rewrite forallb_forall in H.
  unfold validateAttendees. cbn [collection].
  rewrite filter_all by (intros p Hp; now apply canonical_attendee_valid, H).
  eexists. split; [reflexivity|]. split.
  - apply forallb_forall. intros a Ha. apply in_map_iff in Ha.
    destruct Ha as [p [<- Hp]]. now apply canonical_attendee_copy, H.
  - rewrite map_map. apply map_ext_in. intros p Hp.
    now apply decode_validatedAttendee, H.
Qed.

Lemma canonical_person_valid (o : Value) :
  canonical_person o = true -> truthy (isValidPerson o) = true.
Proof.
  unfold canonical_person, isValidPerson. intros H.
  split_andb. destruct o; try discriminate. cbn [truthy prop] in *.
  destruct (lookup "email" props) as [| | |[|c s]| |]; try discriminate.
  destruct (lookup "name" props) as [| | |[|c' s']| |]; try discriminate.
  reflexivity.
Qed.

Lemma revalidated_event (h : Host) (v : Value) :
  canonical_event v = true -> prop v "eventName" = VUndefined ->
  exists v',
    validateEventOptions h v = Ok v'
    /\ canonical_event v' = true
    /\ Spec.summary (decode_event v') = DEFAULT_EVENT_NAME
    /\ Spec.description (decode_event v') = Spec.description (decode_event v)
    /\ Spec.location (decode_event v') = Spec.location (decode_event v)
    /\ Spec.organizer (decode_event v') = Spec.organizer (decode_event v)
    /\ Spec.attendees (decode_event v') = Spec.attendees (decode_event v).
Proof.
  intros H Hname. unfold canonical_event in H. split_andb.
  assert (Ha : absent v = false) by (destruct v; try discriminate; reflexivity).
  rewrite (validateEventOptions_returns h v Ha).
  eexists. split; [reflexivity|].
  destruct (prop v "attendees") as [| | | |atts|] eqn:Hatt; try discriminate.
  destruct (revalidated_attendees atts ltac:(assumption))
    as [atts' [Hatts' [Hcan' Hdec]]].
  assert (Horg : validateOrganizer (prop v "organizer") = prop v "organizer").
  { match goal with
    | Hx : (is_false (prop v "organizer") || _)%bool = true |- _ =>
        apply orb_prop in Hx; destruct Hx as [Hnone|Hsome]
    end.
    - destruct (prop v "organizer") as [| |[|]| | |]; try discriminate.
      reflexivity.
    - unfold validateOrganizer. now rewrite (canonical_person_valid _ Hsome). }
  assert (Hloc : js_or (prop v "location") (VBool false) = prop v "location").
  { match goal with
    | Hx : (is_false (prop v "location") || _)%bool = true |- _ =>
        apply orb_prop in Hx; destruct Hx as [Hnone|Hsome]
    end.
    - destruct (prop v "location") as [| |[|]| | |]; try discriminate.
      reflexivity.
    - destruct (prop v "location") as [| | |[|c s]| |]; try discriminate.
      reflexivity. }
  assert (Hdesc : js_or (prop v "description") (VStr "") = prop v "description").
  { destruct (prop v "description") as [| | |[|c s]| |]; try discriminate;
      reflexivity. }
  unfold canonical_event, decode_event.
  cbn [prop lookup String.eqb Ascii.eqb Bool.eqb is_object is_string andb
       Spec.summary Spec.description Spec.location Spec.organizer
       Spec.attendees].
  rewrite Hatts', Hcan', Horg, Hloc, Hdesc, Hname.
  cbn [js_or truthy is_string collection andb toString].
  repeat match goal with
         | Hx : ?b = true |- context [?b] => rewrite Hx
         end.
  repeat split; try reflexivity. rewrite Hatt. exact Hdec.
Qed.

Lemma validated_event_has_no_eventName (h : Host) (e v : Value) :
  validateEventOptions h e = Ok v -> prop v "eventName" = VUndefined.
Proof.
  intros H. destruct (absent e) eqn:Ha.
  - destruct e; discriminate.
  - rewrite (validateEventOptions_returns h e Ha) in H.
    injection H as <-. reflexivity.
Qed.

Lemma mapM_validated_no_eventName (h : Host) (l evs : list Value) :
  mapM (validateEventOptions h) l = Ok evs ->
  Forall (fun v => prop v "eventName" = VUndefined) evs.
Proof.
  revert evs. induction l as [|e l IH]; intros evs H; simpl in H.
  - injection H as <-. constructor.
  - destruct (validateEventOptions h e) as [v|] eqn:Hv; [|discriminate].
    cbn [bind] in H.
    destruct (mapM (validateEventOptions h) l) as [vs|]; [|discriminate].
    cbn [bind] in H. injection H as <-. constructor.
    + exact (validated_event_has_no_eventName h e v Hv).
    + now apply IH.
Qed.

Lemma revalidated_events (h : Host) (evs : list Value) :
  forallb canonical_event evs = true ->
  Forall (fun v => prop v "eventName" = VUndefined) evs ->
  exists evs',
    mapM (validateEventOptions h) evs = Ok evs'
    /\ forallb canonical_event evs' = true
    /\ Forall2 (fun v v' => renamed_copy (decode_event v) (decode_event v'))
               evs evs'.
Proof.
  induction evs as [|v evs IH]; intros Hcan Hname; simpl in *.
  - exists []. repeat split; constructor.
  - apply andb_prop in Hcan. destruct Hcan as [Hv Hrest].
    inversion Hname as [|? ? Hn Hns]; subst.
    destruct (revalidated_event h v Hv Hn) as [v' [Hv' [Hc' Hcopy]]].
    destruct (IH Hrest Hns) as [evs' [Hevs' [Hcs' Hall]]].
    exists (v' :: evs'). rewrite Hv', Hevs'. cbn [bind].
    split; [reflexivity|]. split; [simpl; now rewrite Hc', Hcs'|].
    constructor; [exact Hcopy | exact Hall].
Qed.

(** X2. Validating a raw event twice loses its name: the second pass reads
    [eventName], which the validated event does not have, and puts the
    default name in [summary].  Description, location, organizer and
    attendees come through unchanged. *)
Theorem validateEventOptions_twice_loses_name (h : Host) (e : Value) :
  raw_event e = true ->
  exists v v',
    validateEventOptions h e = Ok v
    /\ validateEventOptions h v = Ok v'
    /\ canonical_event v' = true
    /\ renamed_copy (decode_event v) (decode_event v').
Proof.
  intros H.
  destruct (validated_event_canonical h e H) as [v [Hv [Hcan _]]].
  destruct (revalidated_event h v Hcan
              (validated_event_has_no_eventName h e v Hv))
    as [v' [Hv' [Hcan' Hcopy]]].
  exists v, v'. repeat split; auto; apply Hcopy.
Qed.

Lemma validateEventOptions_twice_loses_name_witness :
  exists v v',
    validateEventOptions sample_host sample_raw_event = Ok v
    /\ validateEventOptions sample_host v = Ok v'
    /\ canonical_event v' = true
    /\ renamed_copy (decode_event v) (decode_event v').
Proof.
  apply (validateEventOptions_twice_loses_name sample_host sample_raw_event).
  reflexivity.
Defined.

Lemma resolved_timeZone_kept (h : Host) (c : Value) :
  opt_string (prop c "timeZone") = true ->
  js_or (VStr (resolved_timeZone h c)) (VStr (guessedTimezone h))
  = VStr (resolved_timeZone h c).
Proof.
  unfold resolved_timeZone, js_or. intros H.
  destruct (prop c "timeZone") as [| | |[|ch s]| |]; try discriminate;
    cbn [truthy String.eqb negb toString];
    destruct (guessedTimezone h); reflexivity.
Qed.

Lemma formatted_events_no_eventName (h : Host) (c : Value) (evs : list Value) :
  truthy (prop c "isValid") = false ->
  formatted_events h c = Ok evs ->
  Forall (fun v => prop v "eventName" = VUndefined) evs.
Proof.
  unfold formatted_events. intros -> H.
  destruct (truthy (prop c "events")).
  - exact (mapM_validated_no_eventName h _ evs H).
  - injection H as <-. constructor; [reflexivity | constructor].
Qed.

(** What [getCalendar] makes of the options [createCalendar] has
    validated: it validates their events again. *)
Lemma getCalendar_validated_again (h : Host) (p tz : string)
    (evs evs' : list Value) :
  mapM (validateEventOptions h) evs = Ok evs' ->
  forallb canonical_event evs' = true ->
  js_or (VStr tz) (VStr (guessedTimezone h)) = VStr tz ->
  getCalendar h (VObj [ ("filePath", VStr p); ("events", VArr evs);
                        ("timeZone", VStr tz) ])
  = Ok (join (SYSTEM_LINE_BREAK h)
             (Spec.calendar_lines
                (map (Spec.event_block tz) (map decode_event evs')))).
Proof.
  intros Hevs' Hcan Htz. unfold getCalendar, validateCalendarOptions.
  cbn [get prop lookup String.eqb Ascii.eqb Bool.eqb bind truthy collection].
  unfold validateFilePath. cbn [truthy negb bind].
  rewrite Hevs', Htz.
  cbn [get prop lookup String.eqb Ascii.eqb Bool.eqb bind truthy collection].
  rewrite mapM_formatEvent by (auto; reflexivity).
  cbn [bind prop lookup String.eqb Ascii.eqb Bool.eqb toString].
  now rewrite formatCalendar_lines.
Qed.

(** X3. On raw options without the marker, [createCalendar] does not write
    the document [getCalendar] returns for them: it validates the options,
    and [getCalendar] validates the result again, so every event of the
    written document has the default name.  The write goes to the resolved
    path, and the callback is called once: with the error when the write
    fails, with [null] and [undefined] when it goes through. *)
Theorem createCalendar_writes_default_names (h : Host) (c filePath : Value) :
  raw_calendar c = true ->
  truthy (prop c "isValid") = false ->
  opt_string filePath = true ->
  exists path evs evs',
    validateFilePath h (prop c "filename") filePath = Ok (VStr path)
    /\ formatted_events h c = Ok evs
    /\ getCalendar h c
       = Ok (join (SYSTEM_LINE_BREAK h)
                  (Spec.calendar_lines
                     (map (Spec.event_block (resolved_timeZone h c))
                          (map decode_event evs))))
    /\ Forall2 (fun v v' => renamed_copy (decode_event v) (decode_event v'))
               evs evs'
    /\ createCalendar h c filePath
       = Ok [ match
                writeFile_error h path
                  (join (SYSTEM_LINE_BREAK h)
                        (Spec.calendar_lines
                           (map (Spec.event_block (resolved_timeZone h c))
                                (map decode_event evs'))))
              with
              | Some code => [io_error code]
              | None => [VNull; VUndefined]
              end ].
Proof.
  intros Hraw Hv Hp.
  destruct (validateCalendarOptions_raw h c filePath Hraw Hv Hp)
    as [path [evs [Hval [Hpath [Hcan Hfe]]]]].
  destruct (getCalendar_raw h c Hraw Hv) as [evs0 [Hout [_ Hfe0]]].
  rewrite Hfe in Hfe0. injection Hfe0 as <-.
  destruct (revalidated_events h evs Hcan
              (formatted_events_no_eventName h c evs Hv Hfe))
    as [evs' [Hevs' [Hcan' Hcopy]]].
  exists path, evs, evs'.
  split; [exact Hpath|]. split; [exact Hfe|]. split; [exact Hout|].
  split; [exact Hcopy|].
  assert (Htz : opt_string (prop c "timeZone") = true).
  { unfold raw_calendar in Hraw. split_andb. assumption. }
  unfold createCalendar. rewrite Hval. cbn [bind].
  rewrite (getCalendar_validated_again h path _ evs evs' Hevs' Hcan'
             (resolved_timeZone_kept h c Htz)).
  cbn [bind get prop lookup String.eqb Ascii.eqb Bool.eqb].
  unfold toFile, fs_writeFile.
  match goal with
  | |- context [writeFile_error h path ?d] =>
      destruct (writeFile_error h path d)
  end; reflexivity.
Qed.

Lemma createCalendar_writes_default_names_witness :
  exists path evs evs',
    validateFilePath sample_host (prop sample_raw_calendar "filename")
                     (VStr "/tmp/out.ics") = Ok (VStr path)
    /\ formatted_events sample_host sample_raw_calendar = Ok evs
    /\ getCalendar sample_host sample_raw_calendar
       = Ok (join (SYSTEM_LINE_BREAK sample_host)
                  (Spec.calendar_lines
                     (map (Spec.event_block
                             (resolved_timeZone sample_host sample_raw_calendar))
                          (map decode_event evs))))
    /\ Forall2 (fun v v' => renamed_copy (decode_event v) (decode_event v'))
               evs evs'
    /\ createCalendar sample_host sample_raw_calendar (VStr "/tmp/out.ics")
       = Ok [ match
                writeFile_error sample_host path
                  (join (SYSTEM_LINE_BREAK sample_host)
                        (Spec.calendar_lines
                           (map (Spec.event_block
                                   (resolved_timeZone sample_host
                                                      sample_raw_calendar))
                                (map decode_event evs'))))
              with
              | Some code => [io_error code]
              | None => [VNull; VUndefined]
              end ].
Proof.
  apply (createCalendar_writes_default_names sample_host sample_raw_calendar
           (VStr "/tmp/out.ics")); reflexivity.
Defined.

(** ** Options that carry the marker *)

(** X4. On canonical options that carry the marker, [createCalendar]
    writes the document [getCalendar] returns for them to the [filePath]
    of the options: the path passed as its second argument is not used.
    The callback is called once. *)
Theorem createCalendar_marked_ignores_path (h : Host) (c filePath : Value) :
  canonical_calendar c = true ->
  exists path data,
    prop c "filePath" = VStr path
    /\ getCalendar h c = Ok data
    /\ createCalendar h c filePath
       = Ok [ match writeFile_error h path data with
              | Some code => [io_error code]
              | None => [VNull; VUndefined]
              end ].
Proof.
  intros Hcan.
  destruct (canonical_calendar_fields c Hcan)
    as [Hv [tz [evs [Htz [Hev Hcs]]]]].
  unfold canonical_calendar in Hcan. split_andb.
  destruct (prop c "filePath") as [| | |path| |] eqn:Hpath; try discriminate.
  pose proof (getCalendar_prevalidated h c evs Hv Hev Hcs) as Hdata.
  eexists path, _. split; [reflexivity|]. split; [exact Hdata|].
  unfold createCalendar.
  rewrite (validateCalendarOptions_marked h c filePath Hv). cbn [bind].
  rewrite Hdata. cbn [bind].
  assert (Hget : get c "filePath" = Ok (VStr path))
    by (destruct c; try discriminate; cbn [get]; now rewrite Hpath).
  rewrite Hget. cbn [bind]. unfold toFile, fs_writeFile.
  match goal with
  | |- context [writeFile_error h path ?d] =>
      destruct (writeFile_error h path d)
  end; reflexivity.
Qed.

Lemma createCalendar_marked_ignores_path_witness :
  exists path data,
    prop sample_canonical_calendar "filePath" = VStr path
    /\ getCalendar sample_host sample_canonical_calendar = Ok data
    /\ createCalendar sample_host sample_canonical_calendar
                      (VStr "/somewhere/else.ics")
       = Ok [ match writeFile_error sample_host path data with
              | Some code => [io_error code]
              | None => [VNull; VUndefined]
              end ].
Proof.
  apply (createCalendar_marked_ignores_path sample_host
           sample_canonical_calendar (VStr "/somewhere/else.ics")).
  reflexivity.
Defined.

(** X5. On options that carry the marker and hold canonical events but no
    [filePath] string, [createCalendar] throws when it hands the path to
    [fs.writeFile], whatever path was passed as its second argument; the
    callback is never called. *)
Theorem createCalendar_marked_without_path_throws
    (h : Host) (c filePath : Value) (evs : list Value) :
  truthy (prop c "isValid") = true ->
  prop c "events" = VArr evs ->
  forallb canonical_event evs = true ->
  is_string (prop c "filePath") = false ->
  createCalendar h c filePath
  = Throw (TypeError "The path argument must be of type string").
Proof.
  intros Hv Hev Hcs Hpath. unfold createCalendar.
  rewrite (validateCalendarOptions_marked h c filePath Hv). cbn [bind].
  rewrite (getCalendar_prevalidated h c evs Hv Hev Hcs). cbn [bind].
  assert (Hget : get c "filePath" = Ok (prop c "filePath"))
    by (destruct c; try discriminate; reflexivity).
  rewrite Hget. cbn [bind]. unfold toFile, fs_writeFile.
  destruct (prop c "filePath"); try reflexivity. discriminate.
Qed.

Lemma createCalendar_marked_without_path_throws_witness :
  createCalendar sample_host marked_without_timeZone (VStr "/tmp/out.ics")
  = Throw (TypeError "The path argument must be of type string").
Proof.
  apply (createCalendar_marked_without_path_throws sample_host
           marked_without_timeZone (VStr "/tmp/out.ics") [sample_event]);
    reflexivity.
Defined.

(** X6. Options that carry the marker and have no [events] are rendered
    as an empty calendar, whatever else they hold: nothing is defaulted. *)
Theorem getCalendar_marked_without_events (h : Host) (c : Value) :
  truthy (prop c "isValid") = true ->
  absent (prop c "events") = true ->
  getCalendar h c
  = Ok (join (SYSTEM_LINE_BREAK h)
             [ "BEGIN:VCALENDAR"; "VERSION:2.0"; ""; "END:VCALENDAR" ])
  /\ Rev1.getCalendar h c = getCalendar h c
  /\ Rev2.getCalendar h c = getCalendar h c.
Proof.
  intros Hv Hev.
  assert (Hget : get c "events" = Ok (prop c "events"))
    by (destruct c; try discriminate; reflexivity).
  unfold getCalendar, Rev1.getCalendar, Rev2.getCalendar.
  rewrite (validateCalendarOptions_marked h c VUndefined Hv).
  rewrite (Rev1_validateCalendarOptions_marked h c VUndefined Hv).
  rewrite (Rev2_validateCalendarOptions_marked h c VUndefined Hv).
  cbn [bind]. rewrite Hget. cbn [bind].
  assert (Hempty : formatCalendar h ""
                   = join (SYSTEM_LINE_BREAK h)
                          [ "BEGIN:VCALENDAR"; "VERSION:2.0"; "";
                            "END:VCALENDAR" ]).
  { unfold formatCalendar, calendarHeader, calendarFooter.
    now rewrite join_flatten by discriminate. }
  destruct (prop c "events"); try discriminate;
    cbn [collection mapM bind join]; rewrite Hempty; repeat split.
Qed.

Lemma getCalendar_marked_without_events_witness :
  getCalendar sample_host marked_without_events
  = Ok (join (SYSTEM_LINE_BREAK sample_host)
             [ "BEGIN:VCALENDAR"; "VERSION:2.0"; ""; "END:VCALENDAR" ])
  /\ Rev1.getCalendar sample_host marked_without_events
     = getCalendar sample_host marked_without_events
  /\ Rev2.getCalendar sample_host marked_without_events
     = getCalendar sample_host marked_without_events.
Proof.
  apply (getCalendar_marked_without_events sample_host marked_without_events);
    reflexivity.
Defined.

(** ** The second revision without a file name *)

Lemma Rev2_validateFilePath_undefined (h : Host) (fileName : Value) :
  absent fileName = true ->
  Rev2.validateFilePath h fileName VUndefined
  = Throw (TypeError "Path must be a string").
Proof. destruct fileName; intros H; try discriminate; reflexivity. Qed.

(** X7. In the second revision [getCalendar] throws on every options value
    that carries no marker and no file name: [validateFilePath] hands the
    absent name to [path.join]. *)
Theorem Rev2_getCalendar_needs_filename (h : Host) (c : Value) :
  truthy (prop c "isValid") = false ->
  absent (prop c "filename") = true ->
  exists err, Rev2.getCalendar h c = Throw err.
Proof.
  intros Hv Hn. unfold Rev2.getCalendar, Rev2.validateCalendarOptions.
  destruct (absent c) eqn:Hc.
  - destruct c; try discriminate; cbn [get bind]; now eexists.
  - assert (Hget : forall k, get c k = Ok (prop c k))
      by (intros k; destruct c; try discriminate; reflexivity).
    rewrite !Hget. cbn [bind]. rewrite Hv.
    rewrite (Rev2_validateFilePath_undefined h _ Hn). cbn [bind].
    now eexists.
Qed.

Lemma Rev2_getCalendar_needs_filename_witness :
  exists err, Rev2.getCalendar sample_host sample_raw_calendar = Throw err.
Proof.
  apply (Rev2_getCalendar_needs_filename sample_host sample_raw_calendar);
    reflexivity.
Defined.

(** X8. In the second revision [createCalendar] throws on every options
    value that carries no marker, with or without a file name and whatever
    path is passed: the validated options go through [getCalendar], which
    validates them again without a file name.  Nothing is written and the
    callback is never called. *)
Theorem Rev2_createCalendar_always_throws (h : Host) (c filePath : Value) :
  truthy (prop c "isValid") = false ->
  exists err, Rev2.createCalendar h c filePath = Throw err.
Proof.
  intros Hv. unfold Rev2.createCalendar.
  destruct (Rev2.validateCalendarOptions h c filePath) as [validated|err] eqn:Hval;
    [|cbn [bind]; now eexists].
  cbn [bind].
  assert (Hshape : exists p evs,
            validated = VObj [("filePath", p); ("events", VArr evs)]).
  { unfold Rev2.validateCalendarOptions in Hval.
    destruct (get c "isValid") as [iv|] eqn:Hiv; [|discriminate].
    assert (iv = prop c "isValid")
      by (destruct c; try discriminate; cbn [get] in Hiv; congruence).
    subst iv. cbn [bind] in Hval. rewrite Hv in Hval.
    destruct (get c "filename") as [fn|]; [|discriminate]. cbn [bind] in Hval.
    destruct (Rev2.validateFilePath h fn filePath) as [p|]; [|discriminate].
    cbn [bind] in Hval.
    destruct (get c "events") as [events|]; [|discriminate].
    cbn [bind] in Hval.
    destruct (if truthy events
              then mapM (validateEventOptions h) (collection events)
              else event <- validateEventOptions h (VObj []);; Ok [event])
      as [evs|]; [|discriminate].
    cbn [bind] in Hval. injection Hval as <-. now exists p, evs. }
  destruct Hshape as [p [evs ->]].
  unfold Rev2.getCalendar, Rev2.validateCalendarOptions.
  cbn [get prop lookup String.eqb Ascii.eqb Bool.eqb bind truthy].
  rewrite (Rev2_validateFilePath_undefined h VUndefined eq_refl).
  cbn [bind]. now eexists.
Qed.

Lemma Rev2_createCalendar_always_throws_witness :
  exists err,
    Rev2.createCalendar sample_host
      (VObj [("filename", VStr "meeting"); ("events", VArr [sample_raw_event])])
      (VStr "/tmp/out.ics")
    = Throw err.
Proof.
  apply (Rev2_createCalendar_always_throws sample_host
           (VObj [("filename", VStr "meeting");
                  ("events", VArr [sample_raw_event])])
           (VStr "/tmp/out.ics")).
  reflexivity.
Defined.

(** ** The revisions compared *)

Lemma validateFilePath_agree (h : Host) (fileName filePath : Value) :
  truthy filePath = true \/ nonempty_string fileName = true ->
  Rev1.validateFilePath h fileName filePath
  = validateFilePath h fileName filePath
  /\ Rev2.validateFilePath h fileName filePath
     = validateFilePath h fileName filePath.
Proof.
  intros [Hp | Hn].
  - unfold Rev1.validateFilePath, Rev2.validateFilePath, validateFilePath.
    rewrite Hp. split; reflexivity.
  - destruct fileName as [| | |name| |]; try discriminate.
    apply earlier_validateFilePath_named.
    cbn [nonempty_string] in Hn. apply String.eqb_neq.
    now destruct (name =? ""); [discriminate|].
Qed.

(** X9. With an explicit path, or with a file name that is a non-empty
    string, the three revisions of [validateFilePath] return the same. *)
Theorem validateFilePath_revisions_agree (h : Host) (fileName filePath : Value) :
  truthy filePath = true \/ nonempty_string fileName = true ->
  Rev1.validateFilePath h fileName filePath
  = validateFilePath h fileName filePath
  /\ Rev2.validateFilePath h fileName filePath
     = validateFilePath h fileName filePath.
Proof. exact (validateFilePath_agree h fileName filePath). Qed.

Lemma validateFilePath_revisions_agree_witness :
  Rev1.validateFilePath sample_host (VStr "meeting") VUndefined
  = validateFilePath sample_host (VStr "meeting") VUndefined
  /\ Rev2.validateFilePath sample_host (VStr "meeting") VUndefined
     = validateFilePath sample_host (VStr "meeting") VUndefined.
Proof.
  apply (validateFilePath_revisions_agree sample_host (VStr "meeting")
           VUndefined).
  right. reflexivity.
Defined.

(** X10. Without an explicit path, the revision with the early return
    joins the temp directory with a file name that ends in [.ics]: the
    default name, the given name when it ends in [.ics] already, and the
    given name followed by [.ics] otherwise. *)
Theorem validateFilePath_ends_in_ics (h : Host) (fileName filePath : Value) :
  truthy filePath = false ->
  opt_string fileName = true ->
  exists file stem,
    validateFilePath h fileName filePath
    = Ok (VStr (path_join h (TMPDIR h) file))
    /\ file = stem ++ ".ics"
    /\ (truthy fileName = false -> file = DEFAULT_FILE_NAME)
    /\ (forall name, fileName = VStr name -> name <> "" ->
        file = name \/ (file = name ++ ".ics"
                        /\ ~ exists p, name = p ++ ".ics")).
Proof.
  intros Hp Hn.
  destruct (validateFilePath_spec h fileName filePath) as [_ [Hdef Hnamed]].
  destruct (truthy fileName) eqn:Ht.
  - destruct fileName as [| | |name| |]; try discriminate.
    assert (Hne : name <> "").
    { cbn [truthy] in Ht. apply String.eqb_neq.
      now destruct (name =? ""); [discriminate|]. }
    destruct (Hnamed name Hp eq_refl Hne) as [Hends Hnot].
    destruct (endsWith (VStr name) ".ics") eqn:He.
    + apply endsWith_suffix in He. pose proof He as [stem Hstem].
      exists name, stem. split; [now apply Hends|]. split; [exact Hstem|].
      split; [discriminate|]. intros name' Hname' _.
      injection Hname' as <-. now left.
    + assert (Hno : ~ exists p, name = p ++ ".ics").
      { intros Hex. apply endsWith_suffix in Hex. congruence. }
      exists (name ++ ".ics"), name. split; [now apply Hnot|].
      split; [reflexivity|]. split; [discriminate|].
      intros name' Hname' _. injection Hname' as <-. now right.
  - exists DEFAULT_FILE_NAME, "calendar-event".
    split; [now apply Hdef|]. split; [reflexivity|]. split; [reflexivity|].
    intros name -> Hne. cbn [truthy] in Ht. apply String.eqb_neq in Hne.
    rewrite Hne in Ht. discriminate.
Qed.

Lemma validateFilePath_ends_in_ics_witness :
  exists file stem,
    validateFilePath sample_host (VStr "meeting.ics") VUndefined
    = Ok (VStr (path_join sample_host (TMPDIR sample_host) file))
    /\ file = stem ++ ".ics"
    /\ (truthy (VStr "meeting.ics") = false -> file = DEFAULT_FILE_NAME)
    /\ (forall name, VStr "meeting.ics" = VStr name -> name <> "" ->
        file = name \/ (file = name ++ ".ics"
                        /\ ~ exists p, name = p ++ ".ics")).
Proof.
  apply (validateFilePath_ends_in_ics sample_host (VStr "meeting.ics")
           VUndefined); reflexivity.
Defined.

Lemma Rev2_validateCalendarOptions_as_Rev1 (h : Host) (c filePath : Value) :
  truthy (prop c "isValid") = true
  \/ truthy filePath = true
  \/ nonempty_string (prop c "filename") = true ->
  Rev2.validateCalendarOptions h c filePath
  = Rev1.validateCalendarOptions h c filePath.
Proof.
  intros H. unfold Rev2.validateCalendarOptions, Rev1.validateCalendarOptions.
  destruct (absent c) eqn:Hc; [destruct c; try discriminate; reflexivity|].
  assert (Hget : forall k, get c k = Ok (prop c k))
    by (intros k; destruct c; try discriminate; reflexivity).
  rewrite !Hget. cbn [bind].
  destruct (truthy (prop c "isValid")) eqn:Hv; [reflexivity|].
  assert (Hcase : truthy filePath = true
                  \/ nonempty_string (prop c "filename") = true)
    by (destruct H as [H|H]; [discriminate | exact H]).
  destruct (validateFilePath_agree h (prop c "filename") filePath Hcase)
    as [H1 H2].
  now rewrite H1, H2.
Qed.

(** X11. The revision with the [timeZone] option changes nothing for a
    caller who does not use it: on raw options without the marker and
    without a time zone, [getCalendar] returns what the first revision
    returns, and what the second returns when a file name is given. *)
Theorem getCalendar_without_timeZone_as_before (h : Host) (c : Value) :
  raw_calendar c = true ->
  truthy (prop c "isValid") = false ->
  truthy (prop c "timeZone") = false ->
  getCalendar h c = Rev1.getCalendar h c
  /\ (nonempty_string (prop c "filename") = true ->
      getCalendar h c = Rev2.getCalendar h c).
Proof.
  intros Hraw Hv Htz.
  destruct (getCalendar_raw h c Hraw Hv) as [evs [Hout [_ Hevs]]].
  destruct (Rev1_getCalendar_raw h c Hraw Hv) as [evs1 [Hout1 [_ Hevs1]]].
  rewrite Hevs in Hevs1. injection Hevs1 as <-.
  assert (H1 : getCalendar h c = Rev1.getCalendar h c).
  { rewrite Hout, Hout1. unfold resolved_timeZone. now rewrite Htz. }
  split; [exact H1|]. intros Hn. rewrite H1.
  unfold Rev1.getCalendar, Rev2.getCalendar.
  now rewrite (Rev2_validateCalendarOptions_as_Rev1 h c VUndefined)
    by (right; right; exact Hn).
Qed.

Lemma getCalendar_without_timeZone_as_before_witness :
  getCalendar sample_host
    (VObj [("filename", VStr "meeting"); ("events", VArr [sample_raw_event])])
  = Rev1.getCalendar sample_host
      (VObj [("filename", VStr "meeting"); ("events", VArr [sample_raw_event])])
  /\ (nonempty_string
        (prop (VObj [("filename", VStr "meeting");
                     ("events", VArr [sample_raw_event])]) "filename") = true ->
      getCalendar sample_host
        (VObj [("filename", VStr "meeting");
               ("events", VArr [sample_raw_event])])
      = Rev2.getCalendar sample_host
          (VObj [("filename", VStr "meeting");
                 ("events", VArr [sample_raw_event])])).
Proof.
  apply (getCalendar_without_timeZone_as_before sample_host
           (VObj [("filename", VStr "meeting");
                  ("events", VArr [sample_raw_event])])); reflexivity.
Defined.

(** ** What the time zone option does and does not do *)

(** X12. The [timeZone] option relabels and never converts: two raw
    options without the marker that hold the same events are rendered from
    the same validated events, timestamps included, and differ in the text
    after [TZID=] alone. *)
Theorem timeZone_relabels_only (h : Host) (c1 c2 : Value) :
  raw_calendar c1 = true -> raw_calendar c2 = true ->
  truthy (prop c1 "isValid") = false ->
  truthy (prop c2 "isValid") = false ->
  prop c1 "events" = prop c2 "events" ->
  exists events,
    getCalendar h c1
    = Ok (join (SYSTEM_LINE_BREAK h)
               (Spec.calendar_lines
                  (map (Spec.event_block (resolved_timeZone h c1)) events)))
    /\ getCalendar h c2
       = Ok (join (SYSTEM_LINE_BREAK h)
                  (Spec.calendar_lines
                     (map (Spec.event_block (resolved_timeZone h c2)) events))).
Proof.
  intros Hr1 Hr2 Hv1 Hv2 Hev.
  destruct (getCalendar_raw h c1 Hr1 Hv1) as [evs1 [Hout1 [_ Hevs1]]].
  destruct (getCalendar_raw h c2 Hr2 Hv2) as [evs2 [Hout2 [_ Hevs2]]].
  assert (Heq : formatted_events h c1 = formatted_events h c2)
    by (unfold formatted_events; now rewrite Hv1, Hv2, Hev).
  rewrite Heq, Hevs2 in Hevs1. injection Hevs1 as <-.
  exists (map decode_event evs2). now split.
Qed.

Lemma timeZone_relabels_only_witness :
  exists events,
    getCalendar sample_host sample_raw_calendar
    = Ok (join (SYSTEM_LINE_BREAK sample_host)
               (Spec.calendar_lines
                  (map (Spec.event_block
                          (resolved_timeZone sample_host sample_raw_calendar))
                       events)))
    /\ getCalendar sample_host
         (VObj [ ("timeZone", VStr "Asia/Tokyo");
                 ("events", VArr [sample_raw_event]) ])
       = Ok (join (SYSTEM_LINE_BREAK sample_host)
                  (Spec.calendar_lines
                     (map (Spec.event_block
                             (resolved_timeZone sample_host
                                (VObj [ ("timeZone", VStr "Asia/Tokyo");
                                        ("events", VArr [sample_raw_event]) ])))
                          events))).
Proof.
  apply (timeZone_relabels_only sample_host sample_raw_calendar
           (VObj [ ("timeZone", VStr "Asia/Tokyo");
                   ("events", VArr [sample_raw_event]) ])); reflexivity.
Defined.

(** The start of the sample event reads 09:00 under either label. *)
Example timeZone_relabels_sample :
  exists text,
    getCalendar sample_host
      (VObj [ ("timeZone", VStr "Asia/Tokyo");
              ("events", VArr [sample_raw_event]) ]) = Ok text
    /\ occurrences "DTSTART;TZID=Asia/Tokyo:20200102T090000" text = 1%nat.
Proof. eexists. split; reflexivity. Qed.

(** ** One block per event *)








(** ** Values that are not escaped *)

(** X14. Field values are written as they are, line separators included,
    so the rendering of an event does not determine the event: a summary
    that holds a separator followed by a SUMMARY line reads as the
    description that holds a separator followed by that summary. *)
Theorem formatEvent_does_not_escape (h : Host) (options : Value)
    (stamp start finish a b c : string) :
  absent options = false ->
  exists text,
    formatEvent h
      (plain_event stamp start finish
         (b ++ SYSTEM_LINE_BREAK h ++ "SUMMARY:" ++ c) a) options = Ok text
    /\ formatEvent h
         (plain_event stamp start finish c
            (a ++ SYSTEM_LINE_BREAK h ++ "SUMMARY:" ++ b)) options = Ok text.
Proof.
  intros Ho. eexists. split.
  - apply formatEvent_canonical; [reflexivity | assumption].
  - rewrite formatEvent_canonical by (reflexivity || assumption).
    f_equal. unfold Spec.event_block, decode_event, plain_event.
    cbn [prop lookup String.eqb Ascii.eqb Bool.eqb toString truthy collection
         map app Spec.dtstamp Spec.dtstart Spec.dtend Spec.summary
         Spec.description Spec.location Spec.organizer Spec.attendees].
    cbn [join]. do 5 f_equal.
    now rewrite !append_assoc.
Qed.

Lemma formatEvent_does_not_escape_witness :
  exists text,
    formatEvent sample_host
      (plain_event "20200101T010000" "20200102T090000" "20200102T100000"
         ("Lunch" ++ SYSTEM_LINE_BREAK sample_host ++ "SUMMARY:" ++ "Dinner")
         "Notes") sample_options = Ok text
    /\ formatEvent sample_host
         (plain_event "20200101T010000" "20200102T090000" "20200102T100000"
            "Dinner"
            ("Notes" ++ SYSTEM_LINE_BREAK sample_host ++ "SUMMARY:" ++ "Lunch"))
         sample_options = Ok text.
Proof.
  apply (formatEvent_does_not_escape sample_host sample_options
           "20200101T010000" "20200102T090000" "20200102T100000"
           "Notes" "Lunch" "Dinner").
  reflexivity.
Defined.

(** ** Entries that are not objects *)

Lemma mapM_throws {A B} (f : A -> Res B) (l : list A) (x : A) :
  In x l -> (exists err, f x = Throw err) -> exists err, mapM f l = Throw err.
Proof.
  intros Hin [err Hx]. induction l as [|y l IH]; [contradiction|].
  simpl. destruct (f y) as [b|e] eqn:Hy; [|now eexists].
  cbn [bind]. destruct Hin as [->|Hin]; [congruence|].
  destruct (IH Hin) as [e ->]. cbn [bind]. now eexists.
Qed.

Lemma validateEventOptions_absent (h : Host) (e : Value) :
  absent e = true -> exists err, validateEventOptions h e = Throw err.
Proof. destruct e; intros H; try discriminate; now eexists. Qed.

(** X15. [validateEventOptions] throws on [null] and [undefined] and on
    nothing else: every other value, be it a string, a boolean or an
    array, gives an event whose eight fields are defined, with three
    timestamp strings and a list of attendees. *)
Theorem validateEventOptions_throws_on_null_only (h : Host) (e : Value) :
  (absent e = true <-> exists err, validateEventOptions h e = Throw err)
  /\ (absent e = false <->
      exists v, validateEventOptions h e = Ok v
                /\ all_fields_defined v = true
                /\ is_string (prop v "dtstamp") = true
                /\ is_string (prop v "dtstart") = true
                /\ is_string (prop v "dtend") = true
                /\ exists l, prop v "attendees" = VArr l).
Proof.
  split; split.
  - apply validateEventOptions_absent.
  - intros [err H]. destruct (absent e) eqn:Ha; [reflexivity|].
    rewrite (validateEventOptions_returns h e Ha) in H. discriminate.
  - intros Ha.
    destruct (validateEventOptions_fields_defined h e Ha) as [v [Hv Hdef]].
    exists v. split; [exact Hv|]. split; [exact Hdef|].
    rewrite (validateEventOptions_returns h e Ha) in Hv. injection Hv as <-.
    repeat split; try reflexivity. unfold validateAttendees.
    cbn [prop lookup String.eqb Ascii.eqb Bool.eqb]. now eexists.
  - intros [v [Hv _]]. destruct (absent e) eqn:Ha; [|reflexivity].
    destruct (validateEventOptions_absent h e Ha) as [err He]. congruence.
Qed.

(** X16. A [null] or [undefined] entry in the events of raw options
    without the marker makes [getCalendar] throw: no document is
    returned, whatever the other entries are. *)
Theorem getCalendar_null_event_throws (h : Host) (c : Value)
    (l : list Value) (e : Value) :
  truthy (prop c "isValid") = false ->
  opt_string (prop c "filename") = true ->
  prop c "events" = VArr l ->
  In e l -> absent e = true ->
  (exists err, getCalendar h c = Throw err)
  /\ (exists err, Rev1.getCalendar h c = Throw err).
Proof.
  intros Hv Hn Hev Hin Ha.
  assert (Hget : forall k, get c k = Ok (prop c k)).
  { intros k. destruct c; try discriminate; reflexivity. }
  destruct (mapM_throws (validateEventOptions h) l e Hin
              (validateEventOptions_absent h e Ha)) as [err Herr].
  destruct (validateFilePath_typed h _ VUndefined Hn eq_refl) as [p Hp].
  destruct (Rev1_validateFilePath_typed h _ VUndefined Hn eq_refl) as [p1 Hp1].
  split.
  - unfold getCalendar, validateCalendarOptions.
    rewrite !Hget. cbn [bind]. rewrite Hv, Hp, Hev. cbn [bind truthy collection].
    rewrite Herr. cbn [bind]. now eexists.
  - unfold Rev1.getCalendar, Rev1.validateCalendarOptions.
    rewrite !Hget. cbn [bind]. rewrite Hv, Hp1, Hev.
    cbn [bind truthy collection]. rewrite Herr. cbn [bind]. now eexists.
Qed.

Lemma getCalendar_null_event_throws_witness :
  (exists err,
     getCalendar sample_host
       (VObj [("events", VArr [sample_raw_event; VNull])]) = Throw err)
  /\ (exists err,
        Rev1.getCalendar sample_host
          (VObj [("events", VArr [sample_raw_event; VNull])]) = Throw err).
Proof.
  apply (getCalendar_null_event_throws sample_host
           (VObj [("events", VArr [sample_raw_event; VNull])])
           [sample_raw_event; VNull] VNull);
    try reflexivity.
  right. left. reflexivity.
Defined.

(** ** Timestamps written in the host's own offset *)

Section WallClock.
Local Open Scope Z_scope.

Lemma is_leap_period (y k : Z) : is_leap (y + k * 400) = is_leap y.
Proof.
  unfold is_leap.
  assert (H4 : (y + k * 400) mod 4 = y mod 4).
  { replace (y + k * 400) with (y + (k * 100) * 4) by lia.
    apply Z_mod_plus_full. }
  assert (H100 : (y + k * 400) mod 100 = y mod 100).
  { replace (y + k * 400) with (y + (k * 4) * 100) by lia.
    apply Z_mod_plus_full. }
  assert (H400 : (y + k * 400) mod 400 = y mod 400) by apply Z_mod_plus_full.
  now rewrite H4, H100, H400.
Qed.

Lemma days_in_month_period (y k m : Z) :
  days_in_month (y + k * 400) m = days_in_month y m.
Proof. unfold days_in_month. now rewrite is_leap_period. Qed.

Lemma days_in_month_le (y m : Z) : days_in_month y m <= 31.
Proof.
  unfold days_in_month.
  destruct (m =? 2); [destruct (is_leap y); lia|].
  destruct ((m =? 4) || (m =? 6) || (m =? 9) || (m =? 11))%bool; lia.
Qed.

Lemma year_ends_found_all (yoe : Z) :
  0 <= yoe < 400 -> year_ends_found yoe = true.
Proof.
  intros Hy.
  assert (H : check_below year_ends_found 9 400 = true)
    by (vm_compute; reflexivity).
  apply (check_below_spec _ _ _ H); [vm_compute; discriminate | lia].
Qed.

Lemma year_of_doe_mono (a b : Z) :
  0 <= a <= b -> b <= 146096 -> year_of_doe a <= year_of_doe b.
Proof.
  intros Ha Hb. unfold year_of_doe. apply Z.div_le_mono; [lia|].
  Z.div_mod_to_equations. lia.
Qed.

(** A day between the first and the last of a year of the era is mapped
    back to that year. *)
Lemma year_of_doe_found (yoe doy : Z) :
  0 <= yoe < 400 ->
  0 <= doy <= 364 + (if is_leap (yoe + 1) then 1 else 0) ->
  0 <= year_start yoe + doy <= 146096
  /\ year_of_doe (year_start yoe + doy) = yoe.
Proof.
  intros Hy Hd. pose proof (year_ends_found_all yoe Hy) as H.
  unfold year_ends_found, year_end in H. split_andb.
  assert (Hlo : year_of_doe (year_start yoe)
                <= year_of_doe (year_start yoe + doy))
    by (apply year_of_doe_mono; lia).
  assert (Hhi : year_of_doe (year_start yoe + doy)
                <= year_of_doe (year_start yoe + 364
                                + (if is_leap (yoe + 1) then 1 else 0)))
    by (apply year_of_doe_mono; lia).
  lia.
Qed.

(** The day of the year that starts in March is mapped back to its month
    and day. *)
Lemma month_day_found (y m d : Z) :
  1 <= m <= 12 -> 1 <= d <= days_in_month y m ->
  let mp := if m <=? 2 then m + 9 else m - 3 in
  let doy := (153 * mp + 2) / 5 + d - 1 in
  0 <= doy <= 364 + (if (m =? 2) && is_leap y then 1 else 0)%bool
  /\ (5 * doy + 2) / 153 = mp.
Proof.
  intros Hm Hd.
  assert (Hcases : m = 1 \/ m = 2 \/ m = 3 \/ m = 4 \/ m = 5 \/ m = 6
                   \/ m = 7 \/ m = 8 \/ m = 9 \/ m = 10 \/ m = 11 \/ m = 12)
    by lia.
  unfold days_in_month in Hd.
  repeat (destruct Hcases as [->|Hcases]); try subst m;
    cbn [Z.eqb Z.leb Z.compare Pos.compare Pos.compare_cont Pos.eqb orb andb]
      in *;
    cbv zeta;
    try (destruct (is_leap y));
    (split; Z.div_mod_to_equations; lia).
Qed.

(** Every date of the calendar is mapped to its day number and back. *)
Lemma civil_round_trip (y m d : Z) :
  1 <= m <= 12 -> 1 <= d <= days_in_month y m ->
  civil_from_days (days_from_civil y m d) = (y, m, d).
Proof.
  intros Hm Hd.
  pose proof (month_day_found y m d Hm Hd) as Hmd. cbv zeta in Hmd.
  unfold days_from_civil, civil_from_days.
  set (y' := if m <=? 2 then y - 1 else y).
  set (era := y' / 400).
  set (yoe := y' - era * 400).
  assert (Hyoe : 0 <= yoe < 400).
  { unfold yoe, era.
    pose proof (Z.mod_pos_bound y' 400 ltac:(lia)) as Hb.
    rewrite Z.mod_eq in Hb by lia. lia. }
  set (mp := if m <=? 2 then m + 9 else m - 3) in *.
  set (doy := (153 * mp + 2) / 5 + d - 1) in *.
  destruct Hmd as [Hdoy Hmp].
  assert (Hleap : (if (m =? 2) && is_leap y then 1 else 0)%bool
                  <= (if is_leap (yoe + 1) then 1 else 0)).
  { destruct (Z.eqb_spec m 2) as [->|_]; cbn [andb];
      [|destruct (is_leap (yoe + 1)); lia].
    replace y with (yoe + 1 + era * 400) by (unfold yoe, y'; simpl; lia).
    rewrite is_leap_period. destruct (is_leap (yoe + 1)); lia. }
  destruct (year_of_doe_found yoe doy Hyoe ltac:(lia)) as [Hdoe Hyear].
  unfold year_start in Hdoe, Hyear.
  replace (era * 146097 + (yoe * 365 + yoe / 4 - yoe / 100 + doy) - 719468
           + 719468)
    with (yoe * 365 + yoe / 4 - yoe / 100 + doy + era * 146097) by lia.
  set (doe := yoe * 365 + yoe / 4 - yoe / 100 + doy) in *.
  rewrite Z.div_add by lia. rewrite (Z.div_small doe) by lia.
  replace (doe + era * 146097 - (0 + era) * 146097) with doe by lia.
  unfold civil_of_doe. fold (year_of_doe doe). rewrite Hyear.
  replace (doe - (365 * yoe + yoe / 4 - yoe / 100)) with doy
    by (unfold doe; lia).
  rewrite Hmp.
  assert (Hmonth : (if mp <? 10 then mp + 3 else mp - 9) = m).
  { unfold mp. destruct (Z.leb_spec m 2);
      [destruct (Z.ltb_spec (m + 9) 10) | destruct (Z.ltb_spec (m - 3) 10)];
      lia. }
  rewrite Hmonth.
  f_equal; [f_equal|].
  - unfold yoe, y'. destruct (m <=? 2); lia.
  - unfold doy. lia.
Qed.

(** The local fields of the instant of a date and time written with the
    offset that the host has at that instant are the fields written. *)
Lemma local_fields_own_offset (h : Host) (y m d hh mm ss : Z) (off : Offset) :
  well_formed y m d hh mm ss off = true ->
  utcOffset h (utc_ms y m d hh mm ss - offset_minutes off * 60000)
  = offset_minutes off ->
  local_fields h (utc_ms y m d hh mm ss - offset_minutes off * 60000)
  = (y, m, d, hh, mm, ss).
Proof.
  intros Hwf Hoff. unfold well_formed in Hwf. split_andb.
  unfold local_fields. rewrite Hoff.
  replace (utc_ms y m d hh mm ss - offset_minutes off * 60000
           + offset_minutes off * 60000)
    with (utc_ms y m d hh mm ss) by lia.
  unfold utc_ms, MS_PER_DAY.
  set (days := days_from_civil y m d).
  set (tod := hh * 3600000 + mm * 60000 + ss * 1000).
  assert (Htod : 0 <= tod < 86400000) by (unfold tod; lia).
  replace (days * 86400000 + hh * 3600000 + mm * 60000 + ss * 1000)
    with (tod + days * 86400000) by (unfold tod; lia).
  rewrite Z.div_add, Z_mod_plus_full by lia.
  rewrite (Z.div_small tod), (Z.mod_small tod) by lia.
  cbn [Z.add]. unfold days. rewrite civil_round_trip by lia.
  assert (Hh : tod / 3600000 = hh)
    by (symmetry; apply (Z.div_unique tod 3600000 hh (mm * 60000 + ss * 1000));
        unfold tod; lia).
  assert (Hm60 : tod / 60000 = hh * 60 + mm)
    by (symmetry; apply (Z.div_unique tod 60000 (hh * 60 + mm) (ss * 1000));
        unfold tod; lia).
  assert (Hs60 : tod / 1000 = (hh * 60 + mm) * 60 + ss)
    by (symmetry; apply (Z.div_unique tod 1000 ((hh * 60 + mm) * 60 + ss) 0);
        unfold tod; lia).
  rewrite Hh, Hm60, Hs60.
  assert (Hmin : (hh * 60 + mm) mod 60 = mm)
    by (symmetry; apply (Z.mod_unique _ 60 hh mm); lia).
  assert (Hsec : ((hh * 60 + mm) * 60 + ss) mod 60 = ss)
    by (symmetry; apply (Z.mod_unique _ 60 (hh * 60 + mm) ss); lia).
  now rewrite Hmin, Hsec.
Qed.

Lemma validateDateStamp_own_offset (h : Host) (hours : option Z)
    (y m d hh mm ss : Z) (off : Offset) :
  well_formed y m d hh mm ss off = true ->
  utcOffset h (utc_ms y m d hh mm ss - offset_minutes off * 60000)
  = offset_minutes off ->
  validateDateStamp h (VStr (iso_string y m d hh mm ss off)) hours
  = (four_digits y ++ two_digits m ++ two_digits d ++ "T"
     ++ two_digits hh ++ two_digits mm ++ two_digits ss)%string.
Proof.
  intros Hwf Hoff. rewrite (validateDateStamp_iso h hours _ _ _ _ _ _ _ Hwf).
  unfold format_ical. rewrite (local_fields_own_offset h _ _ _ _ _ _ _ Hwf Hoff).
  unfold well_formed in Hwf. split_andb.
  pose proof (days_in_month_le y m).
  rewrite zeroFill_four_digits by lia.
  now rewrite !zeroFill_two_digits by lia.
Qed.

End WallClock.

(** X17. A well-formed timestamp written with the offset that the host's
    time zone has at that instant is validated to its own digits: the
    date and time of day of the input, without punctuation and without
    the offset. *)
Theorem validateDateStamp_keeps_wall_clock (h : Host) (hours : option Z)
    (y m d hh mm ss : Z) (off : Offset) :
  well_formed y m d hh mm ss off = true ->
  utcOffset h (utc_ms y m d hh mm ss - offset_minutes off * 60000)%Z
  = offset_minutes off ->
  validateDateStamp h (VStr (iso_string y m d hh mm ss off)) hours
  = four_digits y ++ two_digits m ++ two_digits d ++ "T"
    ++ two_digits hh ++ two_digits mm ++ two_digits ss.
Proof. exact (validateDateStamp_own_offset h hours y m d hh mm ss off). Qed.

Lemma validateDateStamp_keeps_wall_clock_witness :
  validateDateStamp sample_host (VStr "2020-02-29T23:59:58+01:00") None
  = "20200229T235958".
Proof.
  apply (validateDateStamp_keeps_wall_clock sample_host None
           2020 2 29 23 59 58 (OffsetHM true 1 0)); reflexivity.
Defined.


